(** * The CHIP16 execution core of [cpu.py]

    A shallow embedding of class [Cpu]: its memory and register lists, the
    instruction decoder [create_params], the dispatch table built by
    [__instruction_table], the handlers it registers, and [step], [reset],
    [write] and [read].  Python values are modelled as they occur in the
    program ([None] or an unbounded integer), Python exceptions as an
    exception result that keeps the state reached when it was raised. *)

From Stdlib Require Import ZArith Lia String.
From stdpp Require Import base gmap list strings.

Local Open Scope Z_scope.

(** ** The fragment of Python the program relies on *)

Module Py.

(** A cell of [self.memory] or [self.r]: [None] until assigned, then an
    [int] (Python integers are unbounded). *)
Definition value : Type := option Z.

(** The exceptions that the code can raise.  [KeyError] carries the key of
    the failed dictionary lookup, as [KeyError.args] does; [JmpException]
    is the class defined at the end of [cpu.py]. *)
Inductive exn : Type :=
| TypeError
| IndexError
| ValueError
| KeyError (key : value)
| JmpException (v : string).

(** Outcome of running a piece of code from a state: a returned value or a
    raised exception, in both cases with the state reached. *)
Inductive result (St A : Type) : Type :=
| Ret (a : A) (s : St)
| Raise (e : exn) (s : St).
Arguments Ret {St A} a s.
Arguments Raise {St A} e s.

Definition M (St A : Type) : Type := St -> result St A.

Definition ret {St A} (a : A) : M St A := fun s => Ret a s.
Definition raise {St A} (e : exn) : M St A := fun s => Raise e s.
Definition bind {St A B} (m : M St A) (k : A -> M St B) : M St B :=
  fun s => match m s with
           | Ret a s' => k a s'
           | Raise e s' => Raise e s'
           end.
Definition gets {St A} (f : St -> A) : M St A := fun s => Ret (f s) s.
Definition modify {St} (f : St -> St) : M St unit := fun s => Ret tt (f s).
Definition lift {St A} (x : exn + A) : M St A :=
  fun s => match x with inl e => Raise e s | inr a => Ret a s end.

(** The state a run ends in, whether it returned or raised. *)
Definition final {St A} (x : result St A) : St :=
  match x with Ret _ s => s | Raise _ s => s end.

(** What a caller observes of a run: the value returned or the exception. *)
Definition outcome {St A} (x : result St A) : exn + A :=
  match x with Ret a _ => inr a | Raise e _ => inl e end.

(** [list.__getitem__] / [__setitem__] index resolution on a list of length
    [len]: negative indices count from the end, anything outside
    [-len, len) is an [IndexError]. *)
Definition index (len i : Z) : option nat :=
  if (0 <=? i) && (i <? len) then Some (Z.to_nat i)
  else if (- len <=? i) && (i <? 0) then Some (Z.to_nat (len + i))
  else None.

Definition getitem (l : list value) (i : Z) : exn + value :=
  match index (Z.of_nat (length l)) i with
  | Some k => match l !! k with Some v => inr v | None => inl IndexError end
  | None => inl IndexError
  end.

Definition setitem (l : list value) (i : Z) (v : value) : exn + list value :=
  match index (Z.of_nat (length l)) i with
  | Some k => inr (<[k := v]> l)
  | None => inl IndexError
  end.

(** Indexing a list with something that is not an integer is a [TypeError]. *)
Definition as_index (i : value) : exn + Z :=
  match i with Some k => inr k | None => inl TypeError end.

(** Binary integer operators: a [None] operand is a [TypeError]. *)
Definition binop (f : Z -> Z -> Z) (a b : value) : exn + Z :=
  match a, b with
  | Some x, Some y => inr (f x y)
  | _, _ => inl TypeError
  end.

Definition rshift (a : value) (n : Z) : exn + Z := binop Z.shiftr a (Some n).
Definition lshift (a : value) (n : Z) : exn + Z := binop Z.shiftl a (Some n).
Definition and_ (a : value) (b : Z) : exn + Z := binop Z.land a (Some b).
Definition or_ (a b : value) : exn + Z := binop Z.lor a b.
Definition add (a : value) (b : Z) : exn + Z := binop Z.add a (Some b).

End Py.

Declare Scope py_scope.
Delimit Scope py_scope with py.
Notation "x <- m ;; k" := (Py.bind m (fun x => k))
  (at level 100, m at next level, right associativity, only parsing) : py_scope.
Notation "m ;; k" := (Py.bind m (fun _ => k))
  (at level 100, right associativity, only parsing) : py_scope.

(** ** The collaborators

    [cpu.py] imports [gpu], [spu] and [random] and only calls them; their
    code is not part of the sources.  Each is taken as a parameter: a state
    type with one operation per method (or attribute assignment) that the
    CPU uses.  The operations keep the names of the Python methods. *)

Module Gpu.
Class t (G : Type) : Type := {
  clear_fg : G -> G;
  clear_bg : G -> G;
  (** [vblank()] is used as a condition. *)
  vblank : G -> bool * G;
  (** [gpu.bg = n], [gpu.spritew = ll], [gpu.spriteh = hh] *)
  set_bg : Z -> G -> G;
  set_spritew : Py.value -> G -> G;
  set_spriteh : Py.value -> G -> G;
  (** Both draw methods answer whether the sprite collided; the handlers
      shift that boolean into the flags word. *)
  drw_hhll : Z -> Py.value -> Py.value -> G -> bool * G;
  drw_rz : Z -> Py.value -> Py.value -> G -> bool * G;
  flip : bool -> bool -> G -> G
}.
End Gpu.

Module Spu.
Class t (S : Type) : Type := {
  stop : S -> S;
  play500hz : Z -> S -> S;
  play1000hz : Z -> S -> S;
  play1500hz : Z -> S -> S;
  play_tone : Py.value -> Z -> S -> S;
  setup : Py.value -> Z -> S -> S
}.
End Spu.

Module Random.
(** [randint a b] for [a <= b]; the state stands for the generator hidden
    in the [random] module. *)
Class t (R : Type) : Type := {
  randint : Z -> Z -> R -> Z * R
}.
End Random.

(** ** class Cpu *)

Module Cpu.
Import Py.
Local Open Scope py_scope.

Definition RAM_ROM_START : Z := 0x0000.
Definition STACK_START : Z := 0xFDF0.
Definition IO_PORTS_START : Z := 0xFFF0.
Definition CYCLES_PER_SECOND : Z := 1000000.
Definition CYCLES_PER_INSTRUCTION : Z := 1.

(** The dictionary built by [create_params].  Its keys are fixed, so it is a
    record.  The fields computed with an integer operator are integers; the
    fields copied from a memory cell ([op_code], [ll], [hh], [ad]) are cells. *)
Module Params.
Record t : Type := mk {
  op_code : value;
  y : Z;
  x : Z;
  n : Z;
  z : Z;
  ll : value;
  hh : value;
  hflip : Z;
  vflip : Z;
  hhll : Z;
  vtsr : Z;
  ad : value
}.
End Params.

Section Machine.
Context {G S R : Type} `{!Gpu.t G} `{!Spu.t S} `{!Random.t R}.

(** The attributes of a [Cpu] object ([__instruction_set] is the constant
    table below), with the state of the generator of [random]. *)
Record t : Type := mk {
  current_cyles : Z;
  pc : Z;
  sp : Z;
  r : list value;
  flag : Z;
  memory : list value;
  gpu : G;
  spu : S;
  random : R
}.

Definition set_current_cyles (v : Z) (s : t) : t :=
  mk v (pc s) (sp s) (r s) (flag s) (memory s) (gpu s) (spu s) (random s).
Definition set_pc (v : Z) (s : t) : t :=
  mk (current_cyles s) v (sp s) (r s) (flag s) (memory s) (gpu s) (spu s) (random s).
Definition set_sp (v : Z) (s : t) : t :=
  mk (current_cyles s) (pc s) v (r s) (flag s) (memory s) (gpu s) (spu s) (random s).
Definition set_r (v : list value) (s : t) : t :=
  mk (current_cyles s) (pc s) (sp s) v (flag s) (memory s) (gpu s) (spu s) (random s).
Definition set_flag (v : Z) (s : t) : t :=
  mk (current_cyles s) (pc s) (sp s) (r s) v (memory s) (gpu s) (spu s) (random s).
Definition set_memory (v : list value) (s : t) : t :=
  mk (current_cyles s) (pc s) (sp s) (r s) (flag s) v (gpu s) (spu s) (random s).
Definition set_gpu (v : G) (s : t) : t :=
  mk (current_cyles s) (pc s) (sp s) (r s) (flag s) (memory s) v (spu s) (random s).
Definition set_spu (v : S) (s : t) : t :=
  mk (current_cyles s) (pc s) (sp s) (r s) (flag s) (memory s) (gpu s) v (random s).
Definition set_random (v : R) (s : t) : t :=
  mk (current_cyles s) (pc s) (sp s) (r s) (flag s) (memory s) (gpu s) (spu s) v.

(** [self.memory[i]], [self.memory[i] = v], [self.r[i]], [self.r[i] = v] *)
Definition memory_get (i : Z) : M t value :=
  fun s => lift (getitem (memory s) i) s.
Definition memory_set (i : Z) (v : value) : M t unit :=
  fun s => match setitem (memory s) i v with
           | inr l => Ret tt (set_memory l s)
           | inl e => Raise e s
           end.
Definition r_get (i : Z) : M t value :=
  fun s => lift (getitem (r s) i) s.
Definition r_set (i : Z) (v : value) : M t unit :=
  fun s => match setitem (r s) i v with
           | inr l => Ret tt (set_r l s)
           | inl e => Raise e s
           end.

(** Calls into the collaborators. *)
Definition gpu_call {A} (f : G -> A * G) : M t A :=
  fun s => let (a, g) := f (gpu s) in Ret a (set_gpu g s).
Definition gpu_do (f : G -> G) : M t unit :=
  fun s => Ret tt (set_gpu (f (gpu s)) s).
Definition spu_do (f : S -> S) : M t unit :=
  fun s => Ret tt (set_spu (f (spu s)) s).

(** [random.randint(a, b)] raises [ValueError] on an empty range. *)
Definition random_randint (a b : Z) : M t Z :=
  fun s => if b <? a then Raise ValueError s
           else let (v, g) := Random.randint a b (random s) in
                Ret v (set_random g s).

(** [__create_16bit_two_complement] *)
Definition create_16bit_two_complement (value : Z) : Z :=
  if negb (Z.land value (Z.shiftl 1 (16 - 1)) =? 0)
  then value - Z.shiftl 1 16
  else value.

Definition register_pc : M t Z :=
  v <- gets pc ;; ret (create_16bit_two_complement v).

Definition register_sp : M t Z :=
  v <- gets sp ;; ret (create_16bit_two_complement v).

(** On a register that is still [None] the test [value & ..] is a [TypeError]. *)
Definition register_r (index : Z) : M t Z :=
  v <- r_get index ;;
  match v with
  | Some w => ret (create_16bit_two_complement w)
  | None => raise TypeError
  end.

(** [write]: the low byte goes to [address], the rest to [address + 1]. *)
Definition write (address value : Z) : M t unit :=
  memory_set address (Some (Z.land value 0xFF)) ;;
  memory_set (address + 1) (Some (Z.shiftr value 8)).

(** [read]; the address may come straight from a register, so it is a cell. *)
Definition read (address : value) : M t Z :=
  a1 <- lift (add address 1) ;;
  high <- memory_get a1 ;;
  high <- lift (lshift high 8) ;;
  a0 <- lift (as_index address) ;;
  low <- memory_get a0 ;;
  value <- lift (or_ (Some high) low) ;;
  ret (create_16bit_two_complement value).

(** [create_params]: one memory access per occurrence of [self.memory[..]]
    in the source, in the order the statements run. *)
Definition create_params (address : Z) : M t Params.t :=
  op_code <- memory_get address ;;
  b <- memory_get (address + 1) ;;
  y <- lift (rshift b 4) ;;
  b <- memory_get (address + 1) ;;
  x <- lift (and_ b 15) ;;
  b <- memory_get (address + 2) ;;
  n <- lift (and_ b 15) ;;
  ll <- memory_get (address + 2) ;;
  hh <- memory_get (address + 3) ;;
  hflip <- lift (rshift hh 1) ;;
  vflip <- lift (and_ hh 1) ;;
  h8 <- lift (lshift hh 8) ;;
  hhll <- lift (or_ (Some h8) ll) ;;
  ad <- memory_get (address + 1) ;;
  ret (Params.mk op_code y x n n ll hh hflip vflip hhll hhll ad).

(** *** The handlers registered by [__instruction_table]

    A handler returns the length to add to [pc], or raises. *)

(** 0x - Misc/Video/Audio *)
Definition nop (params : Params.t) : M t Z :=
  ret 4.

Definition cls (params : Params.t) : M t Z :=
  gpu_do Gpu.clear_fg ;;
  gpu_do Gpu.clear_bg ;;
  ret 4.

Definition vblank (params : Params.t) : M t Z :=
  b <- gpu_call Gpu.vblank ;;
  if b : bool then ret 4 else ret 0.

Definition bgc (params : Params.t) : M t Z :=
  gpu_do (Gpu.set_bg (Params.n params)) ;;
  ret 4.

Definition spr (params : Params.t) : M t Z :=
  gpu_do (Gpu.set_spritew (Params.ll params)) ;;
  gpu_do (Gpu.set_spriteh (Params.hh params)) ;;
  ret 4.

Definition drw_hhll (params : Params.t) : M t Z :=
  rx <- r_get (Params.x params) ;;
  ry <- r_get (Params.y params) ;;
  carried <- gpu_call (Gpu.drw_hhll (Params.hhll params) rx ry) ;;
  f <- gets flag ;;
  modify (set_flag (Z.lor f (Z.shiftl (Z.b2z carried) 6))) ;;
  ret 4.

Definition drw_rz (params : Params.t) : M t Z :=
  rz <- r_get (Params.z params) ;;
  w <- read rz ;;
  rx <- r_get (Params.x params) ;;
  ry <- r_get (Params.y params) ;;
  carried <- gpu_call (Gpu.drw_rz w rx ry) ;;
  f <- gets flag ;;
  modify (set_flag (Z.lor f (Z.shiftl (Z.b2z carried) 6))) ;;
  ret 4.

Definition rnd (params : Params.t) : M t Z :=
  v <- random_randint 0 (Params.hhll params) ;;
  r_set (Params.x params) (Some v) ;;
  ret 4.

Definition flip (params : Params.t) : M t Z :=
  gpu_do (Gpu.flip (Params.hflip params =? 1) (Params.vflip params =? 1)) ;;
  ret 4.

Definition snd0 (params : Params.t) : M t Z :=
  spu_do Spu.stop ;;
  ret 4.

Definition snd1 (params : Params.t) : M t Z :=
  spu_do (Spu.play500hz (Params.hhll params)) ;;
  ret 4.

Definition snd2 (params : Params.t) : M t Z :=
  spu_do (Spu.play1000hz (Params.hhll params)) ;;
  ret 4.

Definition snd3 (params : Params.t) : M t Z :=
  spu_do (Spu.play1500hz (Params.hhll params)) ;;
  ret 4.

Definition snp (params : Params.t) : M t Z :=
  rx <- r_get (Params.x params) ;;
  a <- lift (as_index rx) ;;
  v <- memory_get a ;;
  spu_do (Spu.play_tone v (Params.hhll params)) ;;
  ret 4.

Definition sng (params : Params.t) : M t Z :=
  spu_do (Spu.setup (Params.ad params) (Params.vtsr params)) ;;
  ret 4.

(** 1x - Jumps (Branches) *)
Definition jmp (params : Params.t) : M t Z :=
  modify (set_pc (Params.hhll params)) ;;
  raise (JmpException "JMP").

(** 2x Load operations *)
Definition ldi_rx (params : Params.t) : M t Z :=
  r_set (Params.x params) (Some (Params.hhll params)) ;;
  ret 4.

Definition ldi_sp (params : Params.t) : M t Z :=
  modify (set_sp (Params.hhll params)) ;;
  ret 4.

Definition ldm_rx (params : Params.t) : M t Z :=
  v <- memory_get (Params.hhll params) ;;
  r_set (Params.x params) v ;;
  ret 4.

Definition ldm_rx_ry (params : Params.t) : M t Z :=
  ry <- r_get (Params.y params) ;;
  a <- lift (as_index ry) ;;
  v <- memory_get a ;;
  r_set (Params.x params) v ;;
  ret 4.

Definition mov_rx_ry (params : Params.t) : M t Z :=
  ry <- r_get (Params.y params) ;;
  a <- lift (as_index ry) ;;
  v <- memory_get a ;;
  r_set (Params.x params) v ;;
  ret 4.

(** 3x Store operations: the right-hand side is evaluated before the
    subscript of the target. *)
Definition stm_rx (params : Params.t) : M t Z :=
  rx <- r_get (Params.x params) ;;
  memory_set (Params.hhll params) rx ;;
  ret 4.

Definition stm_rx_ry (params : Params.t) : M t Z :=
  rx <- r_get (Params.x params) ;;
  ry <- r_get (Params.y params) ;;
  a <- lift (as_index ry) ;;
  memory_set a rx ;;
  ret 4.

(** An entry of the table: [{'Mnemonic': .., 'execute': ..}]. *)
Record instruction : Type := Instruction {
  Mnemonic : string;
  execute : Params.t -> M t Z
}.

(** [__instruction_table]: the entries are inserted in the order of the
    assignments [instruction_table[k] = ..] in the source. *)
Definition instruction_table : gmap Z instruction :=
  let instruction_table : gmap Z instruction := ∅ in
  let instruction_table := <[0x00 := Instruction "NOP" nop]> instruction_table in
  let instruction_table := <[0x01 := Instruction "CLS" cls]> instruction_table in
  let instruction_table := <[0x02 := Instruction "VBLNK" vblank]> instruction_table in
  let instruction_table := <[0x03 := Instruction "BGC N" bgc]> instruction_table in
  let instruction_table := <[0x04 := Instruction "SPR HHLL" spr]> instruction_table in
  let instruction_table := <[0x05 := Instruction "DRW RX, RY, HHLL" drw_hhll]> instruction_table in
  let instruction_table := <[0x06 := Instruction "DRW RX, RY, RZ" drw_rz]> instruction_table in
  let instruction_table := <[0x07 := Instruction "RND RX, HHLL" rnd]> instruction_table in
  let instruction_table := <[0x08 := Instruction "FLIP 0, 0" flip]> instruction_table in
  let instruction_table := <[0x09 := Instruction "SND0" snd0]> instruction_table in
  let instruction_table := <[0x0A := Instruction "SND1 HHLL" snd1]> instruction_table in
  let instruction_table := <[0x0B := Instruction "SND2 HHLL" snd2]> instruction_table in
  let instruction_table := <[0x0C := Instruction "SND3 HHLL" snd3]> instruction_table in
  let instruction_table := <[0x0D := Instruction "SNP RX, HHLL" snp]> instruction_table in
  let instruction_table := <[0x0E := Instruction "SNG AD, VTSR" sng]> instruction_table in
  let instruction_table := <[0x10 := Instruction "JMP HHLL" jmp]> instruction_table in
  let instruction_table := <[0x20 := Instruction "LDI RX, HHLL" ldi_rx]> instruction_table in
  let instruction_table := <[0x21 := Instruction "LDI SP, HHLL" ldi_sp]> instruction_table in
  let instruction_table := <[0x22 := Instruction "LDM RX, HHLL" ldm_rx]> instruction_table in
  let instruction_table := <[0x23 := Instruction "LDM RX, RY" ldm_rx_ry]> instruction_table in
  let instruction_table := <[0x24 := Instruction "MOV RX, RY" mov_rx_ry]> instruction_table in
  let instruction_table := <[0x30 := Instruction "STM RX, HHLL" stm_rx]> instruction_table in
  let instruction_table := <[0x31 := Instruction "STM RX, RY" stm_rx_ry]> instruction_table in
  instruction_table.

(** [self.__instruction_set[key]]: a missing key (also [None]) is a
    [KeyError] carrying that key. *)
Definition instruction_set_get (key : value) : exn + instruction :=
  match key with
  | Some op => match instruction_table !! op with
               | Some i => inr i
               | None => inl (KeyError key)
               end
  | None => inl (KeyError key)
  end.

(** [try: .. except JmpException: pass] *)
Definition except_JmpException (m : M t unit) : M t unit :=
  fun s => match m s with
           | Raise (JmpException _) s' => Ret tt s'
           | other => other
           end.

(** [step].  The [logging.info] line formats integer fields only, which
    cannot fail once [create_params] has returned, and writes to the log
    file alone; it is left out.  [self.pc += ..] loads [self.pc] before the
    handler runs and stores after it has returned. *)
Definition step : M t unit :=
  address <- gets pc ;;
  params <- create_params address ;;
  current_instruction <- lift (instruction_set_get (Params.op_code params)) ;;
  except_JmpException
    (pc0 <- gets pc ;;
     length <- execute current_instruction params ;;
     modify (set_pc (pc0 + length))) ;;
  cycles <- gets current_cyles ;;
  modify (set_current_cyles (cycles + 1)).

(** [reset] keeps the collaborators and reinitialises everything else. *)
Definition reset : M t unit :=
  modify (fun s =>
    mk 0 RAM_ROM_START STACK_START
       (replicate (Z.to_nat (0xF + 1)) None)
       0
       (replicate (Z.to_nat (0xFFFF + 1)) None)
       (gpu s) (spu s) (random s)).

End Machine.

Arguments t : clear implicits.
Arguments instruction : clear implicits.

End Cpu.

(** ** Scripted collaborators and concrete machines

    For concrete runs the collaborators are replaced by scripts: a graphics
    unit that answers [vblank()] and the draw calls with two fixed booleans,
    a silent sound unit, and a generator that returns the lower bound. *)

Module Stub.
Import Py.

Record gpu : Type := Gpu { blanking : bool; collides : bool }.

#[global] Instance gpu_t : Gpu.t gpu := {|
  Gpu.clear_fg g := g;
  Gpu.clear_bg g := g;
  Gpu.vblank g := (blanking g, g);
  Gpu.set_bg _ g := g;
  Gpu.set_spritew _ g := g;
  Gpu.set_spriteh _ g := g;
  Gpu.drw_hhll _ _ _ g := (collides g, g);
  Gpu.drw_rz _ _ _ g := (collides g, g);
  Gpu.flip _ _ g := g
|}.

#[global] Instance spu_t : Spu.t unit := {|
  Spu.stop u := u;
  Spu.play500hz _ u := u;
  Spu.play1000hz _ u := u;
  Spu.play1500hz _ u := u;
  Spu.play_tone _ _ u := u;
  Spu.setup _ _ u := u
|}.

#[global] Instance random_t : Random.t unit := {|
  Random.randint a _ u := (a, u)
|}.

Definition cpu : Type := Cpu.t gpu unit unit.

(** [Cpu()]: the constructor stores the collaborators and calls [reset]. *)
Definition init (g : gpu) : cpu :=
  final (Cpu.reset (Cpu.mk 0 0 0 [] 0 [] g tt tt)).

(** Loading a program: the bytes of [image] are stored from cell [at_]. *)
Definition load (at_ : nat) (image : list Z) (s : cpu) : cpu :=
  Cpu.set_memory (list_inserts at_ (Some <$> image) (Cpu.memory s)) s.

(** [n] calls of [step], stopping at the first exception. *)
Fixpoint steps (n : nat) (s : cpu) : result cpu unit :=
  match n with
  | O => Ret tt s
  | S n' => match Cpu.step s with
            | Ret _ s' => steps n' s'
            | Raise e s' => Raise e s'
            end
  end.

Definition quiet : gpu := Gpu false false.

(** A machine whose cells have all been written with zero. *)
Definition zeroed_machine : cpu :=
  Cpu.set_memory (replicate (Z.to_nat (0xFFFF + 1)) (Some 0)) (init quiet).

(** JMP 0x1234 at address 0. *)
Definition jmp_machine : cpu := load 0 [0x10; 0x00; 0x34; 0x12] (init quiet).

(** Two slots holding the same byte 0xFF, which is no opcode. *)
Definition bad_opcode_machine : cpu :=
  load 0 [0xFF; 0x00; 0x00; 0x00; 0xFF; 0x00; 0x00; 0x00] (init quiet).

(** VBLNK at address 0. *)
Definition vblnk_machine (g : gpu) : cpu := load 0 [0x02; 0x00; 0x00; 0x00] (init g).

(** Only the opcode byte of VBLNK written at address 0; the three operand
    cells of the slot are as [reset] left them. *)
Definition vblnk_opcode_machine (g : gpu) : cpu := load 0 [0x02] (init g).

(** DRW r0, r0, 0x2000 at address 0, with the carry bit already set. *)
Definition drw_machine (g : gpu) : cpu :=
  Cpu.set_flag 0x40 (load 0 [0x05; 0x00; 0x00; 0x20] (init g)).

(** LDI r0, 0x2000 ; DRW r0, r0, r0 with a sprite word stored at 0x2000. *)
Definition drw_rz_machine (g : gpu) : cpu :=
  load 0x2000 [0x00; 0x30]
    (load 0 [0x20; 0x00; 0x00; 0x20; 0x06; 0x00; 0x00; 0x00] (init g)).

(** LDI r0, 0x1234 ; STM r0, 0x2000 *)
Definition stm_machine : cpu :=
  load 0 [0x20; 0x00; 0x34; 0x12; 0x30; 0x00; 0x00; 0x20] (init quiet).

(** LDI r0, 0x1234 ; LDI r1, 0x2000 ; STM r0, r1 *)
Definition stm_ry_machine : cpu :=
  load 0 [0x20; 0x00; 0x34; 0x12; 0x20; 0x01; 0x00; 0x20; 0x31; 0x10; 0x00; 0x00]
    (init quiet).

(** LDM r0, 0x2000 ; LDI r1, 0x2000 ; LDM r2, r1 ; MOV r3, r1, after
    [write(0x2000, 0x1234)]. *)
Definition ldm_machine : cpu :=
  final (Cpu.write 0x2000 0x1234
    (load 0 [0x22; 0x00; 0x00; 0x20; 0x20; 0x01; 0x00; 0x20;
             0x23; 0x12; 0x00; 0x00; 0x24; 0x13; 0x00; 0x00] (init quiet))).

(** LDI r0, 0x1234 ; STM r0, 0x2000 ; LDM r1, 0x2000 *)
Definition program_machine : cpu :=
  load 0 [0x20; 0x00; 0x34; 0x12; 0x30; 0x00; 0x00; 0x20; 0x22; 0x01; 0x00; 0x20]
    (init quiet).

End Stub.

(** ** Vocabulary of the specification *)

Module Spec.
Import Py.

(** [toSigned16] as the specification words it: [value - 65536] when bit 15
    is set, [value] otherwise. *)
Definition toSigned16 (v : Z) : Z :=
  if Z.testbit v 15 then v - 65536 else v.

(** The field set of the decoder contract, from the four bytes of a slot
    (byte0 = opcode, byte1 = register byte, byte2 = ll, byte3 = hh). *)
Definition decode (byte0 : value) (byte1 byte2 byte3 : Z) : Cpu.Params.t :=
  {| Cpu.Params.op_code := byte0;
     Cpu.Params.y := Z.shiftr byte1 4;
     Cpu.Params.x := Z.land byte1 0x0F;
     Cpu.Params.n := Z.land byte2 0x0F;
     Cpu.Params.z := Z.land byte2 0x0F;
     Cpu.Params.ll := Some byte2;
     Cpu.Params.hh := Some byte3;
     Cpu.Params.hflip := Z.shiftr byte3 1;
     Cpu.Params.vflip := Z.land byte3 1;
     Cpu.Params.hhll := Z.lor (Z.shiftl byte3 8) byte2;
     Cpu.Params.vtsr := Z.lor (Z.shiftl byte3 8) byte2;
     Cpu.Params.ad := Some byte1 |}.

(** A cell content that is a byte. *)
Definition byte (b : Z) : Prop := 0 <= b <= 255.

(** The signed 16-bit range. *)
Definition int16 (v : Z) : Prop := -32768 <= v <= 32767.

Section Vocabulary.
Context {G S R : Type} `{!Gpu.t G} `{!Spu.t S} `{!Random.t R}.

(** The four cells of the slot at [a] can be read and the three operand
    cells hold integers: the slot holds an instruction with opcode cell
    [byte0]. *)
Definition slot (s : Cpu.t G S R) (a : Z) (byte0 : value) (byte1 byte2 byte3 : Z) : Prop :=
  getitem (Cpu.memory s) a = inr byte0 /\
  getitem (Cpu.memory s) (a + 1) = inr (Some byte1) /\
  getitem (Cpu.memory s) (a + 2) = inr (Some byte2) /\
  getitem (Cpu.memory s) (a + 3) = inr (Some byte3).

(** The opcode cell has no entry in the dispatch table. *)
Definition unimplemented (byte0 : value) : Prop :=
  match byte0 with
  | Some op => Cpu.instruction_table (G:=G) (S:=S) (R:=R) !! op = None
  | None => True
  end.

(** A relation between the state before and the state after is kept by a
    computation when it holds however the computation ends. *)
Definition preserves {A} (P : Cpu.t G S R -> Cpu.t G S R -> Prop)
    (m : M (Cpu.t G S R) A) : Prop :=
  forall s, P s (final (m s)).

(** A preorder on states that no access to memory, registers, stack
    pointer or collaborators can leave. *)
Record frame (P : Cpu.t G S R -> Cpu.t G S R -> Prop) : Prop := {
  frame_refl : forall s, P s s;
  frame_trans : forall s1 s2 s3, P s1 s2 -> P s2 s3 -> P s1 s3;
  frame_memory : forall l s, P s (Cpu.set_memory l s);
  frame_r : forall l s, P s (Cpu.set_r l s);
  frame_sp : forall v s, P s (Cpu.set_sp v s);
  frame_gpu : forall g s, P s (Cpu.set_gpu g s);
  frame_spu : forall g s, P s (Cpu.set_spu g s);
  frame_random : forall g s, P s (Cpu.set_random g s)
}.

(** Every bit set in the flags word before is set after. *)
Definition flags_kept (s s' : Cpu.t G S R) : Prop :=
  forall i, Z.testbit (Cpu.flag s) i = true -> Z.testbit (Cpu.flag s') i = true.

Definition cycles_kept (s s' : Cpu.t G S R) : Prop :=
  Cpu.current_cyles s' = Cpu.current_cyles s.

(** The sizes [reset] gives to the two lists: 16 registers, 65536 cells. *)
Definition sized (s : Cpu.t G S R) : Prop :=
  Z.of_nat (length (Cpu.r s)) = 0xF + 1 /\
  Z.of_nat (length (Cpu.memory s)) = 0xFFFF + 1.

End Vocabulary.
End Spec.

(** * Properties *)

Import Py.

Section Python.

Lemma index_nonneg (len i : Z) :
  0 <= i < len -> index len i = Some (Z.to_nat i).
Proof.
  intros Hi. unfold index.
  destruct (Z.leb_spec 0 i); [|lia].
  destruct (Z.ltb_spec i len); [reflexivity|lia].
Qed.

Lemma getitem_lookup (l : list value) (i : Z) (v : value) :
  0 <= i -> l !! Z.to_nat i = Some v -> getitem l i = inr v.
Proof.
  intros Hi Hv. unfold getitem.
  rewrite index_nonneg, Hv; [reflexivity|].
  apply lookup_lt_Some in Hv. lia.
Qed.

Lemma getitem_inr_index (l : list value) (i : Z) (v : value) :
  getitem l i = inr v ->
  exists k, index (Z.of_nat (length l)) i = Some k /\ l !! k = Some v.
Proof.
  unfold getitem. destruct (index _ i) as [k|]; [|discriminate].
  destruct (l !! k) as [w|] eqn:Hk; [|discriminate].
  intros [= <-]. eauto.
Qed.

Lemma index_lt (len i : Z) (k : nat) :
  index len i = Some k -> (Z.of_nat k < len)%Z.
Proof.
  unfold index.
  destruct (Z.leb_spec 0 i), (Z.ltb_spec i len); simpl;
    try (intros [= <-]; lia);
    destruct (Z.leb_spec (- len) i), (Z.ltb_spec i 0); simpl;
    try discriminate; intros [= <-]; lia.
Qed.

Lemma setitem_nonneg (l : list value) (i : Z) (v : value) :
  0 <= i < Z.of_nat (length l) -> setitem l i v = inr (<[Z.to_nat i := v]> l).
Proof. intros Hi. unfold setitem. rewrite index_nonneg by lia. reflexivity. Qed.

End Python.

(** ** Running the monadic code *)

(** Splits conjunctions only, leaving each conjunct to evaluation. *)
Ltac split_all :=
  unfold Spec.slot; repeat match goal with |- _ /\ _ => split end.

Section Run.
Context {G S R : Type} `{!Gpu.t G} `{!Spu.t S} `{!Random.t R}.
Implicit Types (s : Cpu.t G S R) (p : Cpu.Params.t).

Lemma bind_Ret {A B} (m : M (Cpu.t G S R) A) (k : A -> M (Cpu.t G S R) B) s a s' :
  m s = Ret a s' -> bind m k s = k a s'.
Proof. intros Hm. unfold bind. rewrite Hm. reflexivity. Qed.

Lemma bind_Raise {A B} (m : M (Cpu.t G S R) A) (k : A -> M (Cpu.t G S R) B) s e s' :
  m s = Raise e s' -> bind m k s = Raise e s'.
Proof. intros Hm. unfold bind. rewrite Hm. reflexivity. Qed.

Lemma memory_get_Ret s i v :
  getitem (Cpu.memory s) i = inr v -> Cpu.memory_get i s = Ret v s.
Proof. intros Hv. unfold Cpu.memory_get. rewrite Hv. reflexivity. Qed.

Lemma r_get_Ret s i v :
  getitem (Cpu.r s) i = inr v -> Cpu.r_get i s = Ret v s.
Proof. intros Hv. unfold Cpu.r_get. rewrite Hv. reflexivity. Qed.

(** The decoder returns the field set of the contract whenever the slot
    can be read; it only reads. *)
Lemma create_params_slot s a byte0 byte1 byte2 byte3 :
  Spec.slot s a byte0 byte1 byte2 byte3 ->
  Cpu.create_params a s = Ret (Spec.decode byte0 byte1 byte2 byte3) s.
Proof.
  intros (Hb0 & Hb1 & Hb2 & Hb3). unfold Cpu.create_params.
  apply memory_get_Ret in Hb0, Hb1, Hb2, Hb3.
  repeat (first [ erewrite (bind_Ret (Cpu.memory_get _)) by eassumption
                | erewrite (bind_Ret (lift _)) by reflexivity ]).
  reflexivity.
Qed.

Lemma create_params_unset s a byte0 :
  getitem (Cpu.memory s) a = inr byte0 ->
  getitem (Cpu.memory s) (a + 1) = inr None ->
  Cpu.create_params a s = Raise TypeError s.
Proof.
  intros Hb0 Hb1. unfold Cpu.create_params.
  apply memory_get_Ret in Hb0, Hb1.
  repeat erewrite (bind_Ret (Cpu.memory_get _)) by eassumption.
  reflexivity.
Qed.

Lemma create_params_out_of_range s a byte0 byte1 byte2 :
  getitem (Cpu.memory s) a = inr byte0 ->
  getitem (Cpu.memory s) (a + 1) = inr (Some byte1) ->
  getitem (Cpu.memory s) (a + 2) = inr (Some byte2) ->
  getitem (Cpu.memory s) (a + 3) = inl IndexError ->
  Cpu.create_params a s = Raise IndexError s.
Proof.
  intros Hb0 Hb1 Hb2 Hb3. unfold Cpu.create_params.
  apply memory_get_Ret in Hb0, Hb1, Hb2.
  repeat (first [ erewrite (bind_Ret (Cpu.memory_get _)) by eassumption
                | erewrite (bind_Ret (lift _)) by reflexivity ]).
  apply bind_Raise. unfold Cpu.memory_get. rewrite Hb3. reflexivity.
Qed.

(** What [step] does once the slot at [pc] is decoded and dispatched. *)
Lemma step_dispatch s p ins :
  Cpu.create_params (Cpu.pc s) s = Ret p s ->
  Cpu.instruction_set_get (Cpu.Params.op_code p) = inr ins ->
  Cpu.step s =
    match Cpu.execute ins p s with
    | Ret length s' =>
        Ret tt (Cpu.set_current_cyles (Cpu.current_cyles s' + 1)
                  (Cpu.set_pc (Cpu.pc s + length) s'))
    | Raise (JmpException _) s' =>
        Ret tt (Cpu.set_current_cyles (Cpu.current_cyles s' + 1) s')
    | Raise e s' => Raise e s'
    end.
Proof.
  intros Hp Hins. unfold Cpu.step.
  erewrite (bind_Ret (gets _)) by reflexivity.
  erewrite (bind_Ret (Cpu.create_params _)) by eassumption.
  erewrite (bind_Ret (lift _)) by (rewrite Hins; reflexivity).
  unfold bind at 1, Cpu.except_JmpException.
  erewrite (bind_Ret (gets _)) by reflexivity.
  unfold bind.
  destruct (Cpu.execute ins p s) as [length s'|e s']; [reflexivity|].
  destruct e; reflexivity.
Qed.

Lemma step_no_entry s p :
  Cpu.create_params (Cpu.pc s) s = Ret p s ->
  Spec.unimplemented (G:=G) (S:=S) (R:=R) (Cpu.Params.op_code p) ->
  Cpu.step s = Raise (KeyError (Cpu.Params.op_code p)) s.
Proof.
  intros Hp Hop. unfold Cpu.step.
  erewrite (bind_Ret (gets _)) by reflexivity.
  erewrite (bind_Ret (Cpu.create_params _)) by eassumption.
  apply bind_Raise. unfold Cpu.instruction_set_get.
  unfold Spec.unimplemented in Hop.
  destruct (Cpu.Params.op_code p) as [op|]; [rewrite Hop|]; reflexivity.
Qed.

Lemma instruction_set_get_int (op : Z) (ins : Cpu.instruction G S R) :
  Cpu.instruction_table !! op = Some ins ->
  Cpu.instruction_set_get (Some op) = inr ins.
Proof. intros Hop. unfold Cpu.instruction_set_get. rewrite Hop. reflexivity. Qed.

Lemma table_0x10 :
  Cpu.instruction_table (G:=G) (S:=S) (R:=R) !! 0x10
  = Some (Cpu.Instruction "JMP HHLL"%string Cpu.jmp).
Proof. reflexivity. Qed.

End Run.

(** ** Relations kept by every handler *)

Ltac unfold_handlers :=
  unfold Cpu.nop, Cpu.cls, Cpu.vblank, Cpu.bgc, Cpu.spr, Cpu.drw_hhll,
    Cpu.drw_rz, Cpu.rnd, Cpu.flip, Cpu.snd0, Cpu.snd1, Cpu.snd2, Cpu.snd3,
    Cpu.snp, Cpu.sng, Cpu.jmp, Cpu.ldi_rx, Cpu.ldi_sp, Cpu.ldm_rx,
    Cpu.ldm_rx_ry, Cpu.mov_rx_ry, Cpu.stm_rx, Cpu.stm_rx_ry.

Section Preservation.
Context {G S R : Type} `{!Gpu.t G} `{!Spu.t S} `{!Random.t R}.
Implicit Types (s : Cpu.t G S R) (p : Cpu.Params.t).
Variable P : Cpu.t G S R -> Cpu.t G S R -> Prop.
Hypothesis HP : Spec.frame P.

Lemma preserves_ret {A} (a : A) : Spec.preserves P (ret a).
Proof. intros s. apply HP. Qed.

Lemma preserves_raise {A} e : Spec.preserves P (raise (A:=A) e).
Proof. intros s. apply HP. Qed.

Lemma preserves_lift {A} (x : exn + A) : Spec.preserves P (lift x).
Proof. intros s. unfold lift. destruct x; apply HP. Qed.

Lemma preserves_bind {A B} (m : M (Cpu.t G S R) A) (k : A -> M (Cpu.t G S R) B) :
  Spec.preserves P m -> (forall a, Spec.preserves P (k a)) ->
  Spec.preserves P (bind m k).
Proof.
  intros Hm Hk s. unfold bind. specialize (Hm s).
  destruct (m s) as [a s'|e s']; simpl in *; [|assumption].
  eapply (Spec.frame_trans P HP); [eassumption|apply Hk].
Qed.

(** Binding a value read from the state: the continuation may use it. *)
Lemma preserves_gets {A B} (f : Cpu.t G S R -> A) (k : A -> M (Cpu.t G S R) B) :
  (forall s, P s (final (k (f s) s))) -> Spec.preserves P (bind (gets f) k).
Proof. intros Hk s. apply Hk. Qed.

Lemma preserves_lift_bind {A B} (x : exn + A) (k : A -> M (Cpu.t G S R) B) :
  (forall a, x = inr a -> Spec.preserves P (k a)) ->
  Spec.preserves P (bind (lift x) k).
Proof.
  intros Hk s. unfold bind, lift. destruct x as [e|a]; [apply HP|].
  apply Hk. reflexivity.
Qed.

Lemma preserves_memory_get i : Spec.preserves P (Cpu.memory_get i).
Proof. intros s. apply preserves_lift. Qed.

Lemma preserves_r_get i : Spec.preserves P (Cpu.r_get i).
Proof. intros s. apply preserves_lift. Qed.

Lemma preserves_memory_set i v : Spec.preserves P (Cpu.memory_set i v).
Proof. intros s. unfold Cpu.memory_set. destruct (setitem _ _ _); apply HP. Qed.

Lemma preserves_r_set i v : Spec.preserves P (Cpu.r_set i v).
Proof. intros s. unfold Cpu.r_set. destruct (setitem _ _ _); apply HP. Qed.

Lemma preserves_gpu_call {A} (f : G -> A * G) : Spec.preserves P (Cpu.gpu_call f).
Proof. intros s. unfold Cpu.gpu_call. destruct (f _). apply HP. Qed.

Lemma preserves_gpu_do f : Spec.preserves P (Cpu.gpu_do f).
Proof. intros s. apply HP. Qed.

Lemma preserves_spu_do f : Spec.preserves P (Cpu.spu_do f).
Proof. intros s. apply HP. Qed.

Lemma preserves_random_randint a b : Spec.preserves P (Cpu.random_randint a b).
Proof.
  intros s. unfold Cpu.random_randint.
  destruct (b <? a); [apply HP|]. destruct (Random.randint _ _ _). apply HP.
Qed.

Lemma preserves_set_sp v : Spec.preserves P (modify (Cpu.set_sp v)).
Proof. intros s. apply HP. Qed.

Lemma preserves_if {A} (b : bool) (m1 m2 : M (Cpu.t G S R) A) :
  Spec.preserves P m1 -> Spec.preserves P m2 ->
  Spec.preserves P (if b then m1 else m2).
Proof. destruct b; auto. Qed.

Create HintDb preserves discriminated.
Hint Resolve preserves_ret preserves_raise preserves_lift preserves_bind
  preserves_memory_get preserves_r_get preserves_memory_set preserves_r_set
  preserves_gpu_call preserves_gpu_do preserves_spu_do preserves_random_randint
  preserves_set_sp preserves_if : preserves.

Lemma preserves_read a : Spec.preserves P (Cpu.read a).
Proof. unfold Cpu.read. auto 20 with preserves. Qed.

Lemma preserves_create_params a : Spec.preserves P (Cpu.create_params a).
Proof. unfold Cpu.create_params. auto 40 with preserves. Qed.

Hint Resolve preserves_read : preserves.

(** The two writes that are not covered by the frame: [jmp] assigns [pc],
    the draw handlers or the collision bit into the flags word. *)
Hypothesis HP_pc : forall v s, P s (Cpu.set_pc v s).
Hypothesis HP_carry : forall (carried : bool) s,
  P s (Cpu.set_flag (Z.lor (Cpu.flag s) (Z.shiftl (Z.b2z carried) 6)) s).

Lemma preserves_set_pc v : Spec.preserves P (modify (Cpu.set_pc v)).
Proof. intros s. apply HP_pc. Qed.

Lemma preserves_carry {A} (carried : bool) (k : M (Cpu.t G S R) A) :
  Spec.preserves P k ->
  Spec.preserves P
    (bind (gets Cpu.flag) (fun f =>
       bind (modify (Cpu.set_flag (Z.lor f (Z.shiftl (Z.b2z carried) 6))))
            (fun _ => k))).
Proof.
  intros Hk. apply preserves_gets. intros s. unfold bind, modify.
  eapply (Spec.frame_trans P HP); [apply HP_carry|apply Hk].
Qed.

Hint Resolve preserves_set_pc preserves_carry : preserves.

(** The entries of the dispatch table. *)
Lemma instruction_table_entries (op : Z) (ins : Cpu.instruction G S R) :
  Cpu.instruction_table !! op = Some ins ->
  In ins
    [ Cpu.Instruction "NOP" Cpu.nop; Cpu.Instruction "CLS" Cpu.cls;
      Cpu.Instruction "VBLNK" Cpu.vblank; Cpu.Instruction "BGC N" Cpu.bgc;
      Cpu.Instruction "SPR HHLL" Cpu.spr;
      Cpu.Instruction "DRW RX, RY, HHLL" Cpu.drw_hhll;
      Cpu.Instruction "DRW RX, RY, RZ" Cpu.drw_rz;
      Cpu.Instruction "RND RX, HHLL" Cpu.rnd; Cpu.Instruction "FLIP 0, 0" Cpu.flip;
      Cpu.Instruction "SND0" Cpu.snd0; Cpu.Instruction "SND1 HHLL" Cpu.snd1;
      Cpu.Instruction "SND2 HHLL" Cpu.snd2; Cpu.Instruction "SND3 HHLL" Cpu.snd3;
      Cpu.Instruction "SNP RX, HHLL" Cpu.snp; Cpu.Instruction "SNG AD, VTSR" Cpu.sng;
      Cpu.Instruction "JMP HHLL" Cpu.jmp; Cpu.Instruction "LDI RX, HHLL" Cpu.ldi_rx;
      Cpu.Instruction "LDI SP, HHLL" Cpu.ldi_sp;
      Cpu.Instruction "LDM RX, HHLL" Cpu.ldm_rx;
      Cpu.Instruction "LDM RX, RY" Cpu.ldm_rx_ry;
      Cpu.Instruction "MOV RX, RY" Cpu.mov_rx_ry;
      Cpu.Instruction "STM RX, HHLL" Cpu.stm_rx;
      Cpu.Instruction "STM RX, RY" Cpu.stm_rx_ry ].
Proof.
  unfold Cpu.instruction_table. cbv zeta. intros Hop.
  repeat (rewrite lookup_insert in Hop; case_decide;
          [injection Hop as <-; simpl; tauto|]).
  rewrite lookup_empty in Hop. discriminate.
Qed.

Lemma preserves_execute (op : Z) (ins : Cpu.instruction G S R) p :
  Cpu.instruction_table !! op = Some ins ->
  Spec.preserves P (Cpu.execute ins p).
Proof.
  intros Hop. apply instruction_table_entries in Hop. simpl in Hop.
  repeat (destruct Hop as [<-|Hop]; [simpl; unfold_handlers; auto 20 with preserves|]).
  contradiction.
Qed.

Lemma preserves_gets_only {A} (f : Cpu.t G S R -> A) : Spec.preserves P (gets f).
Proof. intros s. apply HP. Qed.

Lemma preserves_except_JmpException m :
  Spec.preserves P m -> Spec.preserves P (Cpu.except_JmpException m).
Proof.
  intros Hm s. specialize (Hm s). unfold Cpu.except_JmpException.
  destruct (m s) as [a s'|e s']; [assumption|]. destruct e; assumption.
Qed.

(** With the cycle counter outside the relation as well, a whole [step]
    keeps it. *)
Hypothesis HP_cycles : forall v s, P s (Cpu.set_current_cyles v s).

Lemma preserves_step : Spec.preserves P Cpu.step.
Proof.
  unfold Cpu.step.
  apply preserves_bind; [apply preserves_gets_only|]. intros address.
  apply preserves_bind; [apply preserves_create_params|]. intros p.
  apply preserves_lift_bind. intros ins Hins.
  unfold Cpu.instruction_set_get in Hins.
  destruct (Cpu.Params.op_code p) as [op|]; [|discriminate].
  destruct (Cpu.instruction_table !! op) as [i|] eqn:Hop; [|discriminate].
  injection Hins as ->.
  apply preserves_bind.
  - apply preserves_except_JmpException.
    apply preserves_bind; [apply preserves_gets_only|]. intros pc0.
    apply preserves_bind; [eapply preserves_execute; eassumption|].
    intros length. apply preserves_set_pc.
  - intros _. apply preserves_bind; [apply preserves_gets_only|].
    intros cycles s. apply HP_cycles.
Qed.

End Preservation.

(** ** Flags and cycle counter across handlers and steps *)

Section Step.
Context {G S R : Type} `{!Gpu.t G} `{!Spu.t S} `{!Random.t R}.
Implicit Types (s : Cpu.t G S R) (p : Cpu.Params.t).

Lemma flags_kept_frame : Spec.frame (Spec.flags_kept (G:=G) (S:=S) (R:=R)).
Proof. split; unfold Spec.flags_kept; simpl; auto. Qed.

Lemma cycles_kept_frame : Spec.frame (Spec.cycles_kept (G:=G) (S:=S) (R:=R)).
Proof. split; unfold Spec.cycles_kept; simpl; auto; congruence. Qed.

Lemma flags_kept_carry (carried : bool) s :
  Spec.flags_kept s
    (Cpu.set_flag (Z.lor (Cpu.flag s) (Z.shiftl (Z.b2z carried) 6)) s).
Proof.
  intros i Hi. simpl. rewrite Z.lor_spec, Hi. reflexivity.
Qed.

Lemma step_flags_kept : Spec.preserves (G:=G) (S:=S) (R:=R) Spec.flags_kept Cpu.step.
Proof.
  apply preserves_step.
  - apply flags_kept_frame.
  - intros v s i Hi. exact Hi.
  - apply flags_kept_carry.
  - intros v s i Hi. exact Hi.
Qed.

Lemma execute_cycles_kept (op : Z) (ins : Cpu.instruction G S R) p :
  Cpu.instruction_table !! op = Some ins ->
  Spec.preserves Spec.cycles_kept (Cpu.execute ins p).
Proof.
  apply preserves_execute.
  - apply cycles_kept_frame.
  - reflexivity.
  - reflexivity.
Qed.

Lemma instruction_set_get_inr (key : value) (ins : Cpu.instruction G S R) :
  Cpu.instruction_set_get key = inr ins ->
  exists op, key = Some op /\ Cpu.instruction_table !! op = Some ins.
Proof.
  unfold Cpu.instruction_set_get. destruct key as [op|]; [|discriminate].
  destruct (Cpu.instruction_table !! op) as [i|] eqn:Hop; [|discriminate].
  intros [= <-]. eauto.
Qed.

(** A step that returns has counted exactly one cycle. *)
Lemma step_counts_one s s' :
  Cpu.step s = Ret tt s' -> Cpu.current_cyles s' = Cpu.current_cyles s + 1.
Proof.
  unfold Cpu.step. unfold bind at 1, gets at 1. unfold bind at 1.
  pose proof (preserves_create_params _ cycles_kept_frame (Cpu.pc s) s) as Hcp.
  destruct (Cpu.create_params (Cpu.pc s) s) as [p s1|e s1]; [|discriminate].
  unfold bind at 1, lift at 1.
  destruct (Cpu.instruction_set_get (Cpu.Params.op_code p)) as [e|ins] eqn:Hins;
    [discriminate|].
  apply instruction_set_get_inr in Hins as (op & _ & Hop).
  pose proof (execute_cycles_kept op ins p Hop s1) as Hex.
  unfold bind, Cpu.except_JmpException, gets, modify.
  unfold Spec.cycles_kept in *. cbn [final] in *.
  destruct (Cpu.execute ins p s1) as [length s2|e s2]; cbn [final] in *.
  - intros [= <-]. cbn [Cpu.current_cyles Cpu.set_current_cyles Cpu.set_pc].
    congruence.
  - destruct e; try discriminate. intros [= <-].
    cbn [Cpu.current_cyles Cpu.set_current_cyles]. congruence.
Qed.

End Step.

(** ** Decoding and dispatch *)

Section Claims.
Context {G S R : Type} `{!Gpu.t G} `{!Spu.t S} `{!Random.t R}.
Implicit Types (s : Cpu.t G S R) (p : Cpu.Params.t).

Lemma slot_lookup s a byte0 byte1 byte2 byte3 :
  0 <= a ->
  Cpu.memory s !! Z.to_nat a = Some byte0 ->
  Cpu.memory s !! Z.to_nat (a + 1) = Some (Some byte1) ->
  Cpu.memory s !! Z.to_nat (a + 2) = Some (Some byte2) ->
  Cpu.memory s !! Z.to_nat (a + 3) = Some (Some byte3) ->
  Spec.slot s a byte0 byte1 byte2 byte3.
Proof.
  intros Ha Hb0 Hb1 Hb2 Hb3.
  repeat split; apply getitem_lookup; assumption || lia.
Qed.

(** C1 (JMP contract).  A machine whose [pc] is 0 and whose memory starts
    with the bytes 0x10, 0x00, 0x34, 0x12 returns from one [step] with [pc]
    equal to 0x1234, not 0x0004: the handler assigns [pc = hhll] and the
    advance of that step does not happen.  Only the cycle counter changes
    besides. *)
Theorem jmp_contract s :
  Cpu.pc s = 0 ->
  take 4 (Cpu.memory s) = [Some 0x10; Some 0x00; Some 0x34; Some 0x12] ->
  Cpu.step s =
    Ret tt (Cpu.set_current_cyles (Cpu.current_cyles s + 1) (Cpu.set_pc 0x1234 s))
  /\ Cpu.pc (final (Cpu.step s)) = 0x1234
  /\ Cpu.pc (final (Cpu.step s)) <> 0x0004.
Proof.
  intros Hpc Hmem.
  assert (Hcell : forall i, (i < 4)%nat -> Cpu.memory s !! i
            = [Some 0x10; Some 0x00; Some 0x34; Some 0x12] !! i).
  { intros i Hi. rewrite <- Hmem. symmetry. apply lookup_take_lt. exact Hi. }
  assert (Hslot : Spec.slot s (Cpu.pc s) (Some 0x10) 0x00 0x34 0x12).
  { rewrite Hpc. apply slot_lookup; [lia|..].
    - apply (Hcell 0%nat). lia.
    - apply (Hcell 1%nat). lia.
    - apply (Hcell 2%nat). lia.
    - apply (Hcell 3%nat). lia. }
  assert (Hstep : Cpu.step s =
    Ret tt (Cpu.set_current_cyles (Cpu.current_cyles s + 1) (Cpu.set_pc 0x1234 s))).
  { rewrite (step_dispatch s _ _ (create_params_slot _ _ _ _ _ _ Hslot)
               (instruction_set_get_int 0x10 _ table_0x10)).
    reflexivity. }
  rewrite Hstep. repeat split. discriminate.
Qed.

(** C2, amended (decoder).  For every address [a >= 0] whose three operand
    cells [a+1], [a+2] and [a+3] exist and hold integers, the opcode cell
    exists (written or not), and [create_params a] returns the field set
    of the decoder contract and leaves the machine as it was. *)
Theorem create_params_defined s a byte1 byte2 byte3 :
  0 <= a ->
  Cpu.memory s !! Z.to_nat (a + 1) = Some (Some byte1) ->
  Cpu.memory s !! Z.to_nat (a + 2) = Some (Some byte2) ->
  Cpu.memory s !! Z.to_nat (a + 3) = Some (Some byte3) ->
  exists byte0,
    Cpu.memory s !! Z.to_nat a = Some byte0 /\
    Cpu.create_params a s = Ret (Spec.decode byte0 byte1 byte2 byte3) s.
Proof.
  intros Ha Hb1 Hb2 Hb3.
  destruct (Cpu.memory s !! Z.to_nat a) as [byte0|] eqn:Hb0.
  - exists byte0. split; [reflexivity|].
    apply create_params_slot, slot_lookup; assumption.
  - apply lookup_ge_None in Hb0. apply lookup_lt_Some in Hb1.
    exfalso. unfold value in *. lia.
Qed.

(** C5, amended (dispatch failure).  When the slot at [pc] can be decoded
    and its opcode cell has no entry in the dispatch table, [step] raises
    [KeyError] with that opcode cell as its only argument, and the machine
    ([pc], cycle counter, registers, flags, memory, collaborators) is
    exactly as before the step. *)
Theorem dispatch_failure s byte0 byte1 byte2 byte3 :
  Spec.slot s (Cpu.pc s) byte0 byte1 byte2 byte3 ->
  Spec.unimplemented (G:=G) (S:=S) (R:=R) byte0 ->
  Cpu.step s = Raise (KeyError byte0) s.
Proof.
  intros Hslot Hop.
  apply (step_no_entry s _ (create_params_slot _ _ _ _ _ _ Hslot)). exact Hop.
Qed.

Lemma table_0x02 :
  Cpu.instruction_table (G:=G) (S:=S) (R:=R) !! 0x02
  = Some (Cpu.Instruction "VBLNK"%string Cpu.vblank).
Proof. reflexivity. Qed.

(** C8, amended (VBLNK busy-poll).  When the slot at [pc] can be decoded
    (its three operand cells hold integers) and its opcode is VBLNK (0x02):
    if the graphics unit answers that it is not blanking, one [step]
    returns and the [pc] of the machine afterwards is the [pc] before; if
    it answers that it is blanking, the [pc] afterwards is the [pc] before
    plus 4; either way the cycle counter afterwards is the counter before
    plus 1, which is what every returning step adds. *)
Theorem vblnk_busy_poll s byte1 byte2 byte3 (blank : bool) (g : G) :
  Spec.slot s (Cpu.pc s) (Some 0x02) byte1 byte2 byte3 ->
  Gpu.vblank (Cpu.gpu s) = (blank, g) ->
  Cpu.step s =
    Ret tt (Cpu.set_current_cyles (Cpu.current_cyles s + 1)
              (Cpu.set_pc (if blank then Cpu.pc s + 4 else Cpu.pc s)
                 (Cpu.set_gpu g s)))
  /\ (forall t t' : Cpu.t G S R,
        Cpu.step t = Ret tt t' ->
        Cpu.current_cyles t' = Cpu.current_cyles t + 1)
  /\ outcome (Cpu.step s) = inr tt
  /\ Cpu.pc (final (Cpu.step s)) = (if blank then Cpu.pc s + 4 else Cpu.pc s)
  /\ Cpu.current_cyles (final (Cpu.step s)) = Cpu.current_cyles s + 1.
Proof.
  intros Hslot Hblank.
  assert (Hstep : Cpu.step s =
    Ret tt (Cpu.set_current_cyles (Cpu.current_cyles s + 1)
              (Cpu.set_pc (if blank then Cpu.pc s + 4 else Cpu.pc s)
                 (Cpu.set_gpu g s)))).
  { rewrite (step_dispatch s _ _ (create_params_slot _ _ _ _ _ _ Hslot)
               (instruction_set_get_int 0x02 _ table_0x02)).
    cbn [Cpu.execute]. unfold Cpu.vblank, bind, Cpu.gpu_call. rewrite Hblank.
    destruct blank; unfold ret; cbn [Cpu.pc Cpu.set_gpu Cpu.current_cyles].
    - reflexivity.
    - rewrite Z.add_0_r. reflexivity. }
  split; [exact Hstep|]. split; [apply step_counts_one|].
  rewrite Hstep. cbn [outcome final].
  split; [reflexivity|]. split.
  - cbn [Cpu.pc Cpu.set_current_cyles Cpu.set_pc]. reflexivity.
  - cbn [Cpu.current_cyles Cpu.set_current_cyles]. reflexivity.
Qed.

(** C10 (flag stickiness).  Whatever the state and however the step ends,
    every bit set in the flags word before a [step] is set after it, so a
    flags word that is not 0 does not become 0 by stepping; [reset] sets
    it to 0. *)
Theorem flags_sticky s :
  (forall i, Z.testbit (Cpu.flag s) i = true ->
             Z.testbit (Cpu.flag (final (Cpu.step s))) i = true)
  /\ (Cpu.flag s <> 0 -> Cpu.flag (final (Cpu.step s)) <> 0)
  /\ Cpu.flag (final (Cpu.reset s)) = 0.
Proof.
  pose proof (step_flags_kept s) as Hkept. unfold Spec.flags_kept in Hkept.
  split; [exact Hkept|]. split; [|reflexivity].
  intros Hne Hzero. apply Hne. apply Z.bits_inj_0. intros i.
  destruct (Z.testbit (Cpu.flag s) i) eqn:Hi; [|reflexivity].
  apply Hkept in Hi. rewrite Hzero, Z.bits_0 in Hi. discriminate.
Qed.

End Claims.

Lemma jmp_contract_witness :
  Cpu.pc (final (Cpu.step Stub.jmp_machine)) = 0x1234.
Proof.
  refine (proj1 (proj2 (jmp_contract Stub.jmp_machine _ _))).
  - reflexivity.
  - vm_compute. reflexivity.
Defined.

Lemma create_params_defined_witness :
  exists byte0,
    Cpu.memory Stub.jmp_machine !! Z.to_nat 0 = Some byte0 /\
    Cpu.create_params 0 Stub.jmp_machine = Ret (Spec.decode byte0 0x00 0x34 0x12) Stub.jmp_machine.
Proof.
  apply (create_params_defined Stub.jmp_machine 0 0x00 0x34 0x12).
  - lia.
  - vm_compute. reflexivity.
  - vm_compute. reflexivity.
  - vm_compute. reflexivity.
Defined.

(** C2 as stated fails: after [reset] no cell has been written and decoding
    at address 0 raises [TypeError]; with every cell written, decoding at
    0xFFFD, inside the address space, raises [IndexError]. *)
Lemma create_params_not_total :
  Z.of_nat (length (Cpu.memory (Stub.init Stub.quiet))) = 65536 /\
  Cpu.create_params 0 (Stub.init Stub.quiet)
    = Raise TypeError (Stub.init Stub.quiet) /\
  Z.of_nat (length (Cpu.memory Stub.zeroed_machine)) = 65536 /\
  Cpu.create_params 0xFFFD Stub.zeroed_machine
    = Raise IndexError Stub.zeroed_machine.
Proof.
  split; [vm_compute; reflexivity|]. split.
  { apply (create_params_unset _ 0 None); vm_compute; reflexivity. }
  split; [vm_compute; reflexivity|].
  apply (create_params_out_of_range _ 0xFFFD (Some 0) 0 0); vm_compute; reflexivity.
Qed.

Lemma dispatch_failure_witness :
  Cpu.step Stub.bad_opcode_machine
  = Raise (KeyError (Some 0xFF)) Stub.bad_opcode_machine.
Proof.
  apply (dispatch_failure Stub.bad_opcode_machine (Some 0xFF) 0 0 0).
  - split_all; vm_compute; reflexivity.
  - vm_compute. reflexivity.
Defined.

(** C5 as stated fails: the failure does not carry the address.  The two
    slots of [bad_opcode_machine] hold the same undefined opcode; stepping
    at [pc = 0] and at [pc = 4] raises the same exception, so nothing
    computed from the exception is the offending address. *)
Lemma dispatch_failure_omits_address :
  ~ exists address_of : exn -> Z,
      forall (s : Stub.cpu) byte0 byte1 byte2 byte3,
        Spec.slot s (Cpu.pc s) byte0 byte1 byte2 byte3 ->
        Spec.unimplemented (G:=Stub.gpu) (S:=unit) (R:=unit) byte0 ->
        exists e, Cpu.step s = Raise e s /\ address_of e = Cpu.pc s.
Proof.
  intros (address_of & Hclaim).
  assert (Hslot0 : Spec.slot Stub.bad_opcode_machine 0 (Some 0xFF) 0 0 0)
    by (split_all; vm_compute; reflexivity).
  assert (Hslot4 : Spec.slot (Cpu.set_pc 4 Stub.bad_opcode_machine) 4 (Some 0xFF) 0 0 0)
    by (split_all; vm_compute; reflexivity).
  assert (Hop : Spec.unimplemented (G:=Stub.gpu) (S:=unit) (R:=unit) (Some 0xFF))
    by (vm_compute; reflexivity).
  pose proof (step_no_entry Stub.bad_opcode_machine _
                (create_params_slot _ _ _ _ _ _ Hslot0) Hop) as Hrun0.
  pose proof (step_no_entry (Cpu.set_pc 4 Stub.bad_opcode_machine) _
                (create_params_slot _ _ _ _ _ _ Hslot4) Hop) as Hrun4.
  destruct (Hclaim Stub.bad_opcode_machine (Some 0xFF) 0 0 0 Hslot0 Hop)
    as (e1 & He1 & Ha1).
  destruct (Hclaim (Cpu.set_pc 4 Stub.bad_opcode_machine) (Some 0xFF) 0 0 0 Hslot4 Hop)
    as (e2 & He2 & Ha2).
  apply (f_equal outcome) in He1, He2. rewrite Hrun0 in He1. rewrite Hrun4 in He2.
  cbn [outcome] in He1, He2. injection He1 as <-. injection He2 as <-.
  change (Cpu.pc Stub.bad_opcode_machine) with 0 in Ha1.
  change (Cpu.pc (Cpu.set_pc 4 Stub.bad_opcode_machine)) with 4 in Ha2.
  rewrite Ha1 in Ha2. discriminate Ha2.
Qed.

Lemma vblnk_busy_poll_witness :
  (Cpu.pc (final (Cpu.step (Stub.vblnk_machine Stub.quiet)))
     = Cpu.pc (Stub.vblnk_machine Stub.quiet) /\
   Cpu.current_cyles (final (Cpu.step (Stub.vblnk_machine Stub.quiet)))
     = Cpu.current_cyles (Stub.vblnk_machine Stub.quiet) + 1)
  /\
  (Cpu.pc (final (Cpu.step (Stub.vblnk_machine (Stub.Gpu true false))))
     = Cpu.pc (Stub.vblnk_machine (Stub.Gpu true false)) + 4 /\
   Cpu.current_cyles (final (Cpu.step (Stub.vblnk_machine (Stub.Gpu true false))))
     = Cpu.current_cyles (Stub.vblnk_machine (Stub.Gpu true false)) + 1).
Proof.
  split.
  - destruct (vblnk_busy_poll (Stub.vblnk_machine Stub.quiet) 0 0 0 false Stub.quiet)
      as (_ & _ & _ & Hpc & Hcycles).
    + split_all; vm_compute; reflexivity.
    + reflexivity.
    + split; [exact Hpc|exact Hcycles].
  - destruct (vblnk_busy_poll (Stub.vblnk_machine (Stub.Gpu true false)) 0 0 0 true
                (Stub.Gpu true false))
      as (_ & _ & _ & Hpc & Hcycles).
    + split_all; vm_compute; reflexivity.
    + reflexivity.
    + split; [exact Hpc|exact Hcycles].
Defined.

(** C8 as stated fails: with the opcode byte 0x02 at [pc] and the operand
    cells of the slot never written, and a graphics unit that is not
    blanking, [step] raises [TypeError] in the decoder; the machine is as
    before, so the cycle counter has not grown by 1. *)
Lemma vblnk_undecodable_slot :
  Cpu.pc (Stub.vblnk_opcode_machine Stub.quiet) = 0 /\
  getitem (Cpu.memory (Stub.vblnk_opcode_machine Stub.quiet)) 0 = inr (Some 0x02) /\
  Gpu.vblank (Cpu.gpu (Stub.vblnk_opcode_machine Stub.quiet)) = (false, Stub.quiet) /\
  outcome (Cpu.step (Stub.vblnk_opcode_machine Stub.quiet)) = inl TypeError /\
  Cpu.current_cyles (final (Cpu.step (Stub.vblnk_opcode_machine Stub.quiet)))
    <> Cpu.current_cyles (Stub.vblnk_opcode_machine Stub.quiet) + 1.
Proof.
  split_all; try (vm_compute; reflexivity).
  vm_compute. discriminate.
Qed.

Lemma flags_sticky_witness :
  Z.testbit (Cpu.flag (final (Cpu.step (Stub.drw_machine Stub.quiet)))) 6 = true.
Proof.
  apply (proj1 (flags_sticky (Stub.drw_machine Stub.quiet)) 6).
  vm_compute. reflexivity.
Defined.

(** ** Words in memory *)

Section Words.
Context {G S R : Type} `{!Gpu.t G} `{!Spu.t S} `{!Random.t R}.
Implicit Types (s : Cpu.t G S R) (p : Cpu.Params.t).

Lemma land_bit15 (v : Z) :
  Z.land v (Z.shiftl 1 (16 - 1)) = if Z.testbit v 15 then 2 ^ 15 else 0.
Proof.
  change (Z.shiftl 1 (16 - 1)) with (2 ^ 15).
  apply Z.bits_inj'. intros i Hi.
  rewrite Z.land_spec, Z.pow2_bits_eqb by lia.
  destruct (Z.eqb_spec 15 i) as [<-|Hne].
  - destruct (Z.testbit v 15); [|rewrite Z.bits_0; reflexivity].
    rewrite Z.pow2_bits_eqb by lia. reflexivity.
  - rewrite andb_false_r.
    destruct (Z.testbit v 15); [|rewrite Z.bits_0; reflexivity].
    rewrite Z.pow2_bits_eqb by lia. symmetry. apply Z.eqb_neq. exact Hne.
Qed.

(** The function of the source is the [toSigned16] of the specification. *)
Lemma create_16bit_two_complement_toSigned16 (v : Z) :
  Cpu.create_16bit_two_complement v = Spec.toSigned16 v.
Proof.
  unfold Cpu.create_16bit_two_complement, Spec.toSigned16.
  rewrite land_bit15. destruct (Z.testbit v 15); reflexivity.
Qed.

(** Low byte and remaining bits put together again give the value. *)
Lemma word_split (v : Z) :
  Z.lor (Z.shiftl (Z.shiftr v 8) 8) (Z.land v 0xFF) = v.
Proof.
  apply Z.bits_inj'. intros i Hi.
  rewrite Z.lor_spec, Z.land_spec, Z.shiftl_spec by lia.
  change 0xFF with (Z.ones 8).
  destruct (Z.lt_ge_cases i 8) as [Hlt|Hge].
  - rewrite Z.testbit_neg_r by lia.
    rewrite Z.ones_spec_low by lia. rewrite andb_true_r. reflexivity.
  - rewrite Z.shiftr_spec by lia. rewrite Z.ones_spec_high by lia.
    rewrite andb_false_r, orb_false_r. f_equal. lia.
Qed.

Lemma memory_set_Ret s i v :
  0 <= i < Z.of_nat (length (Cpu.memory s)) ->
  Cpu.memory_set i v s = Ret tt (Cpu.set_memory (<[Z.to_nat i := v]> (Cpu.memory s)) s).
Proof.
  intros Hi. unfold Cpu.memory_set. rewrite setitem_nonneg by exact Hi. reflexivity.
Qed.

Lemma write_Ret s a v :
  0 <= a -> a + 1 < Z.of_nat (length (Cpu.memory s)) ->
  Cpu.write a v s =
    Ret tt (Cpu.set_memory
              (<[Z.to_nat (a + 1) := Some (Z.shiftr v 8)]>
                 (<[Z.to_nat a := Some (Z.land v 0xFF)]> (Cpu.memory s))) s).
Proof.
  intros Ha Hlen. unfold Cpu.write.
  erewrite bind_Ret by (apply memory_set_Ret; lia).
  rewrite memory_set_Ret; [reflexivity|].
  cbn [Cpu.memory Cpu.set_memory]. rewrite length_insert. lia.
Qed.

Lemma read_Ret s a high low :
  getitem (Cpu.memory s) (a + 1) = inr (Some high) ->
  getitem (Cpu.memory s) a = inr (Some low) ->
  Cpu.read (Some a) s
  = Ret (Cpu.create_16bit_two_complement (Z.lor (Z.shiftl high 8) low)) s.
Proof.
  intros Hhigh Hlow. unfold Cpu.read.
  apply memory_get_Ret in Hhigh, Hlow.
  repeat (first [ erewrite (bind_Ret (Cpu.memory_get _)) by eassumption
                | erewrite (bind_Ret (lift _)) by reflexivity ]).
  reflexivity.
Qed.

(** C6 (word write/read round trip).  In the 65536-cell memory, for every
    address [a] in [0, 65533] and value [v] in [0, 65535], [write a v]
    returns and a following [read a] returns [toSigned16 v], that is
    [v - 65536] when bit 15 of [v] is set and [v] otherwise. *)
Theorem write_read_roundtrip s a v :
  Z.of_nat (length (Cpu.memory s)) = 0xFFFF + 1 ->
  0 <= a <= 65533 ->
  0 <= v <= 65535 ->
  exists s',
    Cpu.write a v s = Ret tt s' /\
    Cpu.read (Some a) s' = Ret (Spec.toSigned16 v) s'.
Proof.
  intros Hlen Ha Hv. eexists. split.
  - apply write_Ret; lia.
  - erewrite read_Ret.
    + rewrite word_split, create_16bit_two_complement_toSigned16. reflexivity.
    + apply getitem_lookup; [lia|]. cbn [Cpu.memory Cpu.set_memory].
      apply list_lookup_insert_eq. rewrite length_insert.
      unfold value in *. lia.
    + apply getitem_lookup; [lia|]. cbn [Cpu.memory Cpu.set_memory].
      rewrite list_lookup_insert_ne by lia.
      apply list_lookup_insert_eq. unfold value in *. lia.
Qed.

End Words.

Lemma write_read_roundtrip_witness :
  exists s',
    Cpu.write 0x2000 0x8001 (Stub.init Stub.quiet) = Ret tt s' /\
    Cpu.read (Some 0x2000) s' = Ret (-32767) s'.
Proof.
  apply (write_read_roundtrip (Stub.init Stub.quiet) 0x2000 0x8001).
  - vm_compute. reflexivity.
  - lia.
  - lia.
Defined.

(** ** Draw, load and store handlers *)

Section Handlers.
Context {G S R : Type} `{!Gpu.t G} `{!Spu.t S} `{!Random.t R}.
Implicit Types (s : Cpu.t G S R) (p : Cpu.Params.t).







Lemma table_0x23 :
  Cpu.instruction_table (G:=G) (S:=S) (R:=R) !! 0x23
  = Some (Cpu.Instruction "LDM RX, RY"%string Cpu.ldm_rx_ry).
Proof. reflexivity. Qed.

Lemma table_0x24 :
  Cpu.instruction_table (G:=G) (S:=S) (R:=R) !! 0x24
  = Some (Cpu.Instruction "MOV RX, RY"%string Cpu.mov_rx_ry).
Proof. reflexivity. Qed.

Lemma land_nibble_range (b : Z) : 0 <= Z.land b 0x0F <= 15.
Proof.
  replace (Z.land b 0x0F) with (b mod 2 ^ 4)
    by (symmetry; apply (Z.land_ones b 4); lia).
  pose proof (Z.mod_pos_bound b (2 ^ 4)). lia.
Qed.

(** Reading back the item that an assignment has just stored. *)
Lemma getitem_setitem (l l' : list value) (i : Z) (v : value) :
  setitem l i v = inr l' -> getitem l' i = inr v.
Proof.
  unfold setitem, getitem.
  destruct (index (Z.of_nat (length l)) i) as [k|] eqn:Hk; [|discriminate].
  intros [= <-]. rewrite length_insert, Hk.
  apply index_lt in Hk. rewrite list_lookup_insert_eq by lia. reflexivity.
Qed.

Lemma ldm_rx_ry_Ret s p a v l :
  getitem (Cpu.r s) (Cpu.Params.y p) = inr (Some a) ->
  getitem (Cpu.memory s) a = inr v ->
  setitem (Cpu.r s) (Cpu.Params.x p) v = inr l ->
  Cpu.ldm_rx_ry p s = Ret 4 (Cpu.set_r l s).
Proof.
  intros Hy Hv Hl.
  unfold Cpu.ldm_rx_ry. apply r_get_Ret in Hy. apply memory_get_Ret in Hv.
  erewrite (bind_Ret (Cpu.r_get _)) by eassumption.
  erewrite (bind_Ret (lift _)) by reflexivity.
  erewrite (bind_Ret (Cpu.memory_get _)) by eassumption.
  unfold bind, Cpu.r_set. rewrite Hl. reflexivity.
Qed.

(** C9 (MOV/LDM alias).  The handlers that the dispatch table registers for
    opcodes 0x24 (MOV rx, ry) and 0x23 (LDM rx, ry) give the same outcome
    and the same resulting state on every field set and every state.  Both
    load the memory cell at address [r[y]] into register [x] and return the
    length 4: read back after either handler, register [x] holds the
    content of that cell and the memory is as before.  A [step] on a slot
    with either opcode returns, and afterwards register [x] holds that
    content, [pc] has advanced by 4 and one cycle has been counted. *)
Theorem mov_ldm_alias :
  Cpu.instruction_table (G:=G) (S:=S) (R:=R) !! 0x23
    = Some (Cpu.Instruction "LDM RX, RY"%string Cpu.ldm_rx_ry)
  /\ Cpu.instruction_table (G:=G) (S:=S) (R:=R) !! 0x24
    = Some (Cpu.Instruction "MOV RX, RY"%string Cpu.mov_rx_ry)
  /\ (forall p s, Cpu.mov_rx_ry p s = Cpu.ldm_rx_ry p s)
  /\ (forall p s a v l,
        getitem (Cpu.r s) (Cpu.Params.y p) = inr (Some a) ->
        getitem (Cpu.memory s) a = inr v ->
        setitem (Cpu.r s) (Cpu.Params.x p) v = inr l ->
        Cpu.mov_rx_ry p s = Ret 4 (Cpu.set_r l s)
        /\ Cpu.ldm_rx_ry p s = Ret 4 (Cpu.set_r l s))
  /\ (forall p s a v l,
        getitem (Cpu.r s) (Cpu.Params.y p) = inr (Some a) ->
        getitem (Cpu.memory s) a = inr v ->
        setitem (Cpu.r s) (Cpu.Params.x p) v = inr l ->
        outcome (Cpu.mov_rx_ry p s) = inr 4 /\
        outcome (Cpu.ldm_rx_ry p s) = inr 4 /\
        getitem (Cpu.r (final (Cpu.mov_rx_ry p s))) (Cpu.Params.x p) = inr v /\
        getitem (Cpu.r (final (Cpu.ldm_rx_ry p s))) (Cpu.Params.x p) = inr v /\
        Cpu.memory (final (Cpu.mov_rx_ry p s)) = Cpu.memory s /\
        Cpu.memory (final (Cpu.ldm_rx_ry p s)) = Cpu.memory s)
  /\ (forall s op byte1 byte2 byte3 a v,
        op = 0x23 \/ op = 0x24 ->
        Z.of_nat (length (Cpu.r s)) = 0xF + 1 ->
        Spec.slot s (Cpu.pc s) (Some op) byte1 byte2 byte3 ->
        getitem (Cpu.r s) (Z.shiftr byte1 4) = inr (Some a) ->
        getitem (Cpu.memory s) a = inr v ->
        outcome (Cpu.step s) = inr tt /\
        getitem (Cpu.r (final (Cpu.step s))) (Z.land byte1 0x0F) = inr v /\
        Cpu.pc (final (Cpu.step s)) = Cpu.pc s + 4 /\
        Cpu.current_cyles (final (Cpu.step s)) = Cpu.current_cyles s + 1 /\
        Cpu.memory (final (Cpu.step s)) = Cpu.memory s).
Proof.
  split; [apply table_0x23|]. split; [apply table_0x24|].
  split; [reflexivity|].
  split; [|split].
  - intros p s a v l Hy Hv Hl.
    split; apply (ldm_rx_ry_Ret s p a v l); assumption.
  - intros p s a v l Hy Hv Hl.
    change (Cpu.mov_rx_ry p s) with (Cpu.ldm_rx_ry p s).
    rewrite (ldm_rx_ry_Ret s p a v l Hy Hv Hl).
    cbn [outcome final Cpu.r Cpu.memory Cpu.set_r].
    pose proof (getitem_setitem _ _ _ _ Hl) as Hread.
    split_all; reflexivity || exact Hread.
  - intros s op byte1 byte2 byte3 a v Hop Hlen Hslot Hy Hv.
    pose proof (land_nibble_range byte1) as Hx.
    assert (Hl : setitem (Cpu.r s) (Z.land byte1 0x0F) v
                 = inr (<[Z.to_nat (Z.land byte1 0x0F) := v]> (Cpu.r s))).
    { apply setitem_nonneg. unfold value in *. lia. }
    assert (Hstep : Cpu.step s =
      Ret tt (Cpu.set_current_cyles (Cpu.current_cyles s + 1)
                (Cpu.set_pc (Cpu.pc s + 4)
                   (Cpu.set_r (<[Z.to_nat (Z.land byte1 0x0F) := v]> (Cpu.r s)) s)))).
    { destruct Hop as [-> | ->].
      - rewrite (step_dispatch s _ _ (create_params_slot _ _ _ _ _ _ Hslot)
                   (instruction_set_get_int 0x23 _ table_0x23)).
        cbn [Cpu.execute].
        rewrite (ldm_rx_ry_Ret s (Spec.decode (Some 0x23) byte1 byte2 byte3)
                   a v _ Hy Hv Hl). reflexivity.
      - rewrite (step_dispatch s _ _ (create_params_slot _ _ _ _ _ _ Hslot)
                   (instruction_set_get_int 0x24 _ table_0x24)).
        cbn [Cpu.execute]. change Cpu.mov_rx_ry with (Cpu.ldm_rx_ry (G:=G) (S:=S) (R:=R)).
        rewrite (ldm_rx_ry_Ret s (Spec.decode (Some 0x24) byte1 byte2 byte3)
                   a v _ Hy Hv Hl). reflexivity. }
    rewrite Hstep.
    cbn [outcome final Cpu.r Cpu.pc Cpu.current_cyles Cpu.memory
         Cpu.set_current_cyles Cpu.set_pc Cpu.set_r].
    split_all; try reflexivity.
    apply (getitem_setitem _ _ _ _ Hl).
Qed.

(** The load and store handlers move one cell: [ldm_rx] copies the cell at
    [hhll] into the register, [stm_rx] assigns the whole register value to
    the cell at [hhll]; neither looks at the cell after it. *)
Lemma ldm_rx_Ret s p v l :
  getitem (Cpu.memory s) (Cpu.Params.hhll p) = inr v ->
  setitem (Cpu.r s) (Cpu.Params.x p) v = inr l ->
  Cpu.ldm_rx p s = Ret 4 (Cpu.set_r l s).
Proof.
  intros Hv Hl. unfold Cpu.ldm_rx. apply memory_get_Ret in Hv.
  erewrite (bind_Ret (Cpu.memory_get _)) by eassumption.
  unfold bind, Cpu.r_set. rewrite Hl. reflexivity.
Qed.

Lemma stm_rx_Ret s p v l :
  getitem (Cpu.r s) (Cpu.Params.x p) = inr v ->
  setitem (Cpu.memory s) (Cpu.Params.hhll p) v = inr l ->
  Cpu.stm_rx p s = Ret 4 (Cpu.set_memory l s).
Proof.
  intros Hv Hl. unfold Cpu.stm_rx. apply r_get_Ret in Hv.
  erewrite (bind_Ret (Cpu.r_get _)) by eassumption.
  unfold bind, Cpu.memory_set. rewrite Hl. reflexivity.
Qed.

End Handlers.

(** ** Concrete runs *)



Lemma mov_ldm_alias_witness :
  getitem
    (Cpu.r (final (Cpu.mov_rx_ry (Spec.decode (Some 0x24) 0x13 0x00 0x00)
                     (final (Stub.steps 2 Stub.ldm_machine)))))
    (Cpu.Params.x (Spec.decode (Some 0x24) 0x13 0x00 0x00))
  = inr (Some 0x34)
  /\
  getitem
    (Cpu.r (final (Cpu.ldm_rx_ry (Spec.decode (Some 0x24) 0x13 0x00 0x00)
                     (final (Stub.steps 2 Stub.ldm_machine)))))
    (Cpu.Params.x (Spec.decode (Some 0x24) 0x13 0x00 0x00))
  = inr (Some 0x34)
  /\
  getitem (Cpu.r (final (Cpu.step (final (Stub.steps 3 Stub.ldm_machine)))))
    (Z.land 0x13 0x0F)
  = inr (Some 0x34).
Proof.
  destruct (mov_ldm_alias (G:=Stub.gpu) (S:=unit) (R:=unit))
    as (_ & _ & _ & _ & Hload & Hstep).
  destruct (Hload (Spec.decode (Some 0x24) 0x13 0x00 0x00)
              (final (Stub.steps 2 Stub.ldm_machine)) 0x2000 (Some 0x34)
              (<[3%nat := Some 0x34]> (Cpu.r (final (Stub.steps 2 Stub.ldm_machine)))))
    as (_ & _ & Hmov & Hldm & _).
  - vm_compute. reflexivity.
  - vm_compute. reflexivity.
  - vm_compute. reflexivity.
  - destruct (Hstep (final (Stub.steps 3 Stub.ldm_machine)) 0x24 0x13 0x00 0x00
                0x2000 (Some 0x34)) as (_ & Hread & _).
    + right. reflexivity.
    + vm_compute. reflexivity.
    + split_all; vm_compute; reflexivity.
    + vm_compute. reflexivity.
    + vm_compute. reflexivity.
    + split; [exact Hmov|]. split; [exact Hldm|exact Hread].
Defined.

(** C3 on the code: after LDI r0, 0x1234 ; STM r0, 0x2000 the cell 0x2000
    holds the whole register value 0x1234, not its low byte 0x34, the cell
    0x2001 has not been written, and reading the word at 0x2000 raises
    [TypeError].  STM r0, r1 with r1 = 0x2000 does the same. *)
Lemma stm_stores_one_cell :
  (outcome (Stub.steps 2 Stub.stm_machine) = inr tt /\
   Cpu.r (final (Stub.steps 2 Stub.stm_machine)) !! 0%nat = Some (Some 0x1234) /\
   Cpu.memory (final (Stub.steps 2 Stub.stm_machine)) !! Z.to_nat 0x2000
     = Some (Some 0x1234) /\
   Cpu.memory (final (Stub.steps 2 Stub.stm_machine)) !! Z.to_nat 0x2001
     = Some None /\
   outcome (Cpu.read (Some 0x2000) (final (Stub.steps 2 Stub.stm_machine)))
     = inl TypeError)
  /\
  (outcome (Stub.steps 3 Stub.stm_ry_machine) = inr tt /\
   Cpu.r (final (Stub.steps 3 Stub.stm_ry_machine)) !! 0%nat = Some (Some 0x1234) /\
   Cpu.memory (final (Stub.steps 3 Stub.stm_ry_machine)) !! Z.to_nat 0x2000
     = Some (Some 0x1234) /\
   Cpu.memory (final (Stub.steps 3 Stub.stm_ry_machine)) !! Z.to_nat 0x2001
     = Some None /\
   outcome (Cpu.read (Some 0x2000) (final (Stub.steps 3 Stub.stm_ry_machine)))
     = inl TypeError).
Proof. split_all; vm_compute; reflexivity. Qed.

(** C4 on the code: with the word 0x1234 written at 0x2000 by [write]
    (cells 0x34 and 0x12), LDM r0, 0x2000 leaves 0x34 in r0, and with
    r1 = 0x2000 both LDM r2, r1 and MOV r3, r1 leave 0x34 in their target,
    while [read] at 0x2000 returns 0x1234. *)
Lemma ldm_loads_one_cell :
  outcome (Cpu.read (Some 0x2000) Stub.ldm_machine) = inr 0x1234 /\
  outcome (Stub.steps 4 Stub.ldm_machine) = inr tt /\
  Cpu.r (final (Stub.steps 4 Stub.ldm_machine)) !! 0%nat = Some (Some 0x34) /\
  Cpu.r (final (Stub.steps 4 Stub.ldm_machine)) !! 1%nat = Some (Some 0x2000) /\
  Cpu.r (final (Stub.steps 4 Stub.ldm_machine)) !! 2%nat = Some (Some 0x34) /\
  Cpu.r (final (Stub.steps 4 Stub.ldm_machine)) !! 3%nat = Some (Some 0x34).
Proof. split_all; vm_compute; reflexivity. Qed.

(** * Further properties of the code *)

(** Case analysis on every test a monadic computation makes. *)
Ltac unfold_run :=
  unfold Cpu.create_params, Cpu.read, Cpu.write, Cpu.register_r, Cpu.register_pc,
    Cpu.register_sp, Cpu.memory_get, Cpu.memory_set, Cpu.r_get, Cpu.r_set,
    Cpu.gpu_call, Cpu.gpu_do, Cpu.spu_do, Cpu.random_randint,
    bind, ret, raise, gets, modify, lift,
    as_index, add, rshift, lshift, and_, or_, binop.

Ltac destruct_tests :=
  repeat (cbv beta iota;
          match goal with
          | |- context [match ?x with _ => _ end] =>
              lazymatch x with
              | context [match _ with _ => _ end] => fail
              | _ => destruct x eqn:?
              end
          end);
  cbv beta iota.

Ltac tidy_tests :=
  repeat match goal with
         | H : inl _ = inr _ |- _ => discriminate H
         | H : inr _ = inl _ |- _ => discriminate H
         | H : Some _ = None |- _ => discriminate H
         | H : None = Some _ |- _ => discriminate H
         | H : inl _ = inl _ |- _ => injection H as H
         | H : inr _ = inr _ |- _ => injection H as H
         | H : Some _ = Some _ |- _ => injection H as H
         end;
  subst.

Section Decoder.
Context {G S R : Type} `{!Gpu.t G} `{!Spu.t S} `{!Random.t R}.
Implicit Types (s : Cpu.t G S R) (p : Cpu.Params.t).

Lemma getitem_inl (l : list value) (i : Z) (e : exn) :
  getitem l i = inl e -> e = IndexError.
Proof.
  unfold getitem. destruct (index _ i) as [k|]; [|congruence].
  destruct (l !! k); congruence.
Qed.

Lemma create_params_Ret_inv s a p s' :
  Cpu.create_params a s = Ret p s' ->
  s' = s /\
  exists byte0 byte1 byte2 byte3,
    Spec.slot s a byte0 byte1 byte2 byte3 /\ p = Spec.decode byte0 byte1 byte2 byte3.
Proof.
  unfold_run. destruct_tests; try discriminate.
  intros [= <- <-]. split; [reflexivity|]. tidy_tests.
  eexists _, _, _, _. split; [|reflexivity]. split_all; assumption.
Qed.

Lemma create_params_Raise_inv s a e s' :
  Cpu.create_params a s = Raise e s' ->
  s' = s /\
  ((e = IndexError /\
    exists k, 0 <= k <= 3 /\ getitem (Cpu.memory s) (a + k) = inl IndexError) \/
   (e = TypeError /\
    exists k, 1 <= k <= 3 /\ getitem (Cpu.memory s) (a + k) = inr None)).
Proof.
  unfold_run. destruct_tests; try discriminate; intros [= <- <-];
    (split; [reflexivity|]);
    repeat match goal with
           | H : getitem _ _ = inl ?e |- _ =>
               is_var e; pose proof (getitem_inl _ _ _ H); subst e
           end;
    tidy_tests.
  all: try (left; split; [reflexivity|];
            first [ exists 0; rewrite Z.add_0_r; split; [lia|assumption]
                  | exists 1; split; [lia|assumption]
                  | exists 2; split; [lia|assumption]
                  | exists 3; split; [lia|assumption] ]).
  all: right; split; [reflexivity|];
       first [ exists 1; split; [lia|assumption]
             | exists 2; split; [lia|assumption]
             | exists 3; split; [lia|assumption] ].
Qed.

End Decoder.

(** ** The dispatch table and the shape of a step *)

Ltac reduce_state :=
  cbn [Cpu.current_cyles Cpu.pc Cpu.sp Cpu.r Cpu.flag Cpu.memory Cpu.gpu Cpu.spu
       Cpu.random Cpu.set_current_cyles Cpu.set_pc Cpu.set_sp Cpu.set_r
       Cpu.set_flag Cpu.set_memory Cpu.set_gpu Cpu.set_spu Cpu.set_random
       Cpu.execute final outcome fst snd] in *.

Section Dispatch.
Context {G S R : Type} `{!Gpu.t G} `{!Spu.t S} `{!Random.t R}.
Implicit Types (s : Cpu.t G S R) (p : Cpu.Params.t).

(** The entries of the dispatch table with their opcodes. *)
Lemma instruction_table_lookup (op : Z) (ins : Cpu.instruction G S R) :
  Cpu.instruction_table !! op = Some ins ->
  In (op, ins)
    [ (0x00, Cpu.Instruction "NOP" Cpu.nop); (0x01, Cpu.Instruction "CLS" Cpu.cls);
      (0x02, Cpu.Instruction "VBLNK" Cpu.vblank);
      (0x03, Cpu.Instruction "BGC N" Cpu.bgc);
      (0x04, Cpu.Instruction "SPR HHLL" Cpu.spr);
      (0x05, Cpu.Instruction "DRW RX, RY, HHLL" Cpu.drw_hhll);
      (0x06, Cpu.Instruction "DRW RX, RY, RZ" Cpu.drw_rz);
      (0x07, Cpu.Instruction "RND RX, HHLL" Cpu.rnd);
      (0x08, Cpu.Instruction "FLIP 0, 0" Cpu.flip);
      (0x09, Cpu.Instruction "SND0" Cpu.snd0);
      (0x0A, Cpu.Instruction "SND1 HHLL" Cpu.snd1);
      (0x0B, Cpu.Instruction "SND2 HHLL" Cpu.snd2);
      (0x0C, Cpu.Instruction "SND3 HHLL" Cpu.snd3);
      (0x0D, Cpu.Instruction "SNP RX, HHLL" Cpu.snp);
      (0x0E, Cpu.Instruction "SNG AD, VTSR" Cpu.sng);
      (0x10, Cpu.Instruction "JMP HHLL" Cpu.jmp);
      (0x20, Cpu.Instruction "LDI RX, HHLL" Cpu.ldi_rx);
      (0x21, Cpu.Instruction "LDI SP, HHLL" Cpu.ldi_sp);
      (0x22, Cpu.Instruction "LDM RX, HHLL" Cpu.ldm_rx);
      (0x23, Cpu.Instruction "LDM RX, RY" Cpu.ldm_rx_ry);
      (0x24, Cpu.Instruction "MOV RX, RY" Cpu.mov_rx_ry);
      (0x30, Cpu.Instruction "STM RX, HHLL" Cpu.stm_rx);
      (0x31, Cpu.Instruction "STM RX, RY" Cpu.stm_rx_ry) ].
Proof.
  unfold Cpu.instruction_table. cbv zeta. intros Hop.
  repeat (rewrite lookup_insert in Hop; case_decide;
          [injection Hop as <-; subst op; simpl; tauto|]).
  rewrite lookup_empty in Hop. discriminate.
Qed.

(** X7.  The opcodes that have a handler are 0x00-0x0E, 0x10, 0x20-0x24,
    0x30 and 0x31; every other key, negative or beyond a byte included, is
    missing from the table. *)
Theorem implemented_opcodes (op : Z) :
  is_Some (Cpu.instruction_table (G:=G) (S:=S) (R:=R) !! op) <->
  (0x00 <= op <= 0x0E \/ op = 0x10 \/ 0x20 <= op <= 0x24 \/ op = 0x30 \/ op = 0x31).
Proof.
  split.
  - intros [ins Hins]. apply instruction_table_lookup in Hins. simpl in Hins.
    repeat (destruct Hins as [[= <- _]|Hins]; [lia|]). contradiction.
  - intros Hop.
    assert (Hcases : In op [0x00; 0x01; 0x02; 0x03; 0x04; 0x05; 0x06; 0x07; 0x08;
                            0x09; 0x0A; 0x0B; 0x0C; 0x0D; 0x0E; 0x10; 0x20; 0x21;
                            0x22; 0x23; 0x24; 0x30; 0x31]).
    { simpl. lia. }
    simpl in Hcases.
    repeat (destruct Hcases as [<-|Hcases]; [eexists; reflexivity|]).
    contradiction.
Qed.

Lemma step_create_params_Raise s e s' :
  Cpu.create_params (Cpu.pc s) s = Raise e s' -> Cpu.step s = Raise e s'.
Proof.
  intros Hp. unfold Cpu.step.
  erewrite (bind_Ret (gets _)) by reflexivity.
  apply bind_Raise. exact Hp.
Qed.

(** A step returns or raises through exactly one of four paths. *)
Lemma step_paths s :
  (exists e, Cpu.create_params (Cpu.pc s) s = Raise e s /\ Cpu.step s = Raise e s)
  \/ (exists p, Cpu.create_params (Cpu.pc s) s = Ret p s /\
        Spec.unimplemented (G:=G) (S:=S) (R:=R) (Cpu.Params.op_code p) /\
        Cpu.step s = Raise (KeyError (Cpu.Params.op_code p)) s)
  \/ (exists p op ins, Cpu.create_params (Cpu.pc s) s = Ret p s /\
        Cpu.Params.op_code p = Some op /\
        Cpu.instruction_table !! op = Some ins /\
        Cpu.step s =
          match Cpu.execute ins p s with
          | Ret length s' =>
              Ret tt (Cpu.set_current_cyles (Cpu.current_cyles s' + 1)
                        (Cpu.set_pc (Cpu.pc s + length) s'))
          | Raise (JmpException _) s' =>
              Ret tt (Cpu.set_current_cyles (Cpu.current_cyles s' + 1) s')
          | Raise e s' => Raise e s'
          end).
Proof.
  destruct (Cpu.create_params (Cpu.pc s) s) as [p s1|e s1] eqn:Hp.
  - apply create_params_Ret_inv in Hp as Hinv. destruct Hinv as [-> _].
    right. destruct (Cpu.Params.op_code p) as [op|] eqn:Hop.
    + destruct (Cpu.instruction_table (G:=G) (S:=S) (R:=R) !! op) as [ins|] eqn:Hins.
      * right. exists p, op, ins. split_all; try assumption || reflexivity.
        apply step_dispatch; [assumption|]. rewrite Hop.
        apply instruction_set_get_int. assumption.
      * left. exists p. split; [reflexivity|].
        assert (Hun : Spec.unimplemented (G:=G) (S:=S) (R:=R) (Cpu.Params.op_code p))
          by (rewrite Hop; exact Hins).
        split; [exact Hun|]. apply step_no_entry; assumption.
    + left. exists p. split; [reflexivity|].
      assert (Hun : Spec.unimplemented (G:=G) (S:=S) (R:=R) (Cpu.Params.op_code p))
        by (rewrite Hop; exact I).
      split; [exact Hun|]. apply step_no_entry; assumption.
  - apply create_params_Raise_inv in Hp as Hinv. destruct Hinv as [-> _].
    left. exists e. split; [reflexivity|]. apply step_create_params_Raise. exact Hp.
Qed.

End Dispatch.

(** ** What a handler can do *)

Section Effects.
Context {G S R : Type} `{!Gpu.t G} `{!Spu.t S} `{!Random.t R}.
Implicit Types (s : Cpu.t G S R) (p : Cpu.Params.t).

Lemma setitem_length (l l' : list value) (i : Z) (v : value) :
  setitem l i v = inr l' -> length l' = length l.
Proof.
  unfold setitem. destruct (index _ i) as [k|]; [|discriminate].
  intros [= <-]. apply length_insert.
Qed.

Lemma setitem_inl (l : list value) (i : Z) (v : value) (e : exn) :
  setitem l i v = inl e ->
  e = IndexError /\ ~ (- Z.of_nat (length l) <= i < Z.of_nat (length l)).
Proof.
  unfold setitem, index.
  destruct (Z.leb_spec 0 i), (Z.ltb_spec i (Z.of_nat (length l))); simpl;
    try discriminate;
    destruct (Z.leb_spec (- Z.of_nat (length l)) i), (Z.ltb_spec i 0); simpl;
    try discriminate; intros [= <-]; split; try reflexivity; lia.
Qed.

(** The effect of the handler registered for [op], run on a machine with
    16 registers whose field [x] is a register index. *)
Lemma execute_effect (op : Z) (ins : Cpu.instruction G S R) p s :
  Cpu.instruction_table !! op = Some ins ->
  Z.of_nat (length (Cpu.r s)) = 16 ->
  0 <= Cpu.Params.x p <= 15 ->
  match Cpu.execute ins p s with
  | Ret n s' =>
      Cpu.pc s' = Cpu.pc s /\ op <> 0x10 /\
      (op <> 0x02 -> n = 4) /\ (op = 0x02 -> n = 0 \/ n = 4) /\
      (op <> 0x30 -> op <> 0x31 -> Cpu.memory s' = Cpu.memory s) /\
      (op <> 0x07 -> op <> 0x20 -> op <> 0x22 -> op <> 0x23 -> op <> 0x24 ->
       Cpu.r s' = Cpu.r s) /\
      (op <> 0x21 -> Cpu.sp s' = Cpu.sp s) /\
      (op <> 0x05 -> op <> 0x06 -> Cpu.flag s' = Cpu.flag s)
  | Raise e s' =>
      (s' = s /\ (e = TypeError \/ e = IndexError \/ e = ValueError))
      \/ (op = 0x10 /\ e = JmpException "JMP" /\ s' = Cpu.set_pc (Cpu.Params.hhll p) s)
  end.
Proof.
  intros Hop Hlen Hx. apply instruction_table_lookup in Hop. simpl in Hop.
  repeat (destruct Hop as [[= <- <-]|Hop];
    [ reduce_state; unfold_handlers; unfold_run; destruct_tests; reduce_state;
      repeat match goal with
             | E : setitem _ _ _ = inl _ |- _ => apply setitem_inl in E as [? ?]
             | E : getitem _ _ = inl _ |- _ => apply getitem_inl in E
             end;
      tidy_tests;
      first [ exfalso; unfold value in *; lia
            | split_all; intros; first [reflexivity | lia | tauto | auto]
            | left; split; [reflexivity|]; tauto
            | right; split_all; reflexivity ]
    | ]).
  contradiction.
Qed.

(** No handler changes the number of registers or of memory cells,
    however it ends. *)
Lemma execute_lengths (op : Z) (ins : Cpu.instruction G S R) p s :
  Cpu.instruction_table !! op = Some ins ->
  length (Cpu.r (final (Cpu.execute ins p s))) = length (Cpu.r s) /\
  length (Cpu.memory (final (Cpu.execute ins p s))) = length (Cpu.memory s).
Proof.
  intros Hop. apply instruction_table_lookup in Hop. simpl in Hop.
  repeat (destruct Hop as [[= <- <-]|Hop];
    [ reduce_state; unfold_handlers; unfold_run; destruct_tests; reduce_state;
      repeat match goal with
             | E : setitem _ _ _ = inr _ |- _ => apply setitem_length in E
             end;
      split; first [reflexivity | assumption]
    | ]).
  contradiction.
Qed.

Lemma land_15_range (b : Z) : 0 <= Z.land b 15 <= 15.
Proof.
  replace (Z.land b 15) with (b mod 2 ^ 4)
    by (rewrite <- Z.land_ones by lia; reflexivity).
  pose proof (Z.mod_pos_bound b (2 ^ 4)). lia.
Qed.

End Effects.

(** ** Steps: failure, sizes, program counter, footprint *)

Section Steps.
Context {G S R : Type} `{!Gpu.t G} `{!Spu.t S} `{!Random.t R}.
Implicit Types (s : Cpu.t G S R) (p : Cpu.Params.t).

Lemma decoded_x_range s a p s' :
  Cpu.create_params a s = Ret p s' -> 0 <= Cpu.Params.x p <= 15.
Proof.
  intros Hp. apply create_params_Ret_inv in Hp as (_ & b0 & b1 & b2 & b3 & _ & ->).
  apply land_15_range.
Qed.

(** X4.  On a machine with its 16 registers, a [step] that raises leaves
    every part of the machine as it was, and the exception is a
    [TypeError], an [IndexError], a [ValueError] or the [KeyError] of the
    dispatch; [JmpException] never leaves [step]. *)
Theorem step_failure_atomic s e :
  Z.of_nat (length (Cpu.r s)) = 0xF + 1 ->
  outcome (Cpu.step s) = inl e ->
  final (Cpu.step s) = s /\
  (e = TypeError \/ e = IndexError \/ e = ValueError \/ exists key, e = KeyError key).
Proof.
  intros Hlen.
  destruct (step_paths s) as [(e0 & Hp & ->)|[(p & Hp & Hun & ->)|
                              (p & op & ins & Hp & Hop & Hins & ->)]].
  - intros [= <-]. split; [reflexivity|].
    apply create_params_Raise_inv in Hp as (_ & [[-> _]|[-> _]]); tauto.
  - intros [= <-]. split; [reflexivity|]. eauto 6.
  - pose proof (execute_effect op ins p s Hins Hlen (decoded_x_range _ _ _ _ Hp)) as Heff.
    destruct (Cpu.execute ins p s) as [n s'|e0 s'].
    + discriminate.
    + destruct Heff as [[-> Hkind]|(_ & -> & _)]; [|discriminate].
      destruct e0; try (destruct Hkind as [?|[?|?]]; discriminate);
        intros [= <-]; (split; [reflexivity|tauto]).
Qed.

(** X5.  [reset] gives the machine 16 registers and 65536 memory cells,
    and neither [step] nor [write], however they end, changes those
    numbers. *)
Theorem sizes_invariant s :
  Spec.sized (final (Cpu.reset s)) /\
  (Spec.sized s -> Spec.sized (final (Cpu.step s))) /\
  (forall a v, Spec.sized s -> Spec.sized (final (Cpu.write a v s))).
Proof.
  split; [|split].
  - unfold Spec.sized, Cpu.reset, modify. reduce_state.
    rewrite !length_replicate, !Z2Nat.id by lia. split; reflexivity.
  - intros [Hr Hm]. unfold Spec.sized.
    destruct (step_paths s) as [(e0 & Hp & ->)|[(p & Hp & Hun & ->)|
                                (p & op & ins & Hp & Hop & Hins & ->)]];
      reduce_state; [tauto|tauto|].
    destruct (execute_lengths op ins p s Hins) as [Hr' Hm'].
    destruct (Cpu.execute ins p s) as [n s'|e0 s']; reduce_state.
    + rewrite Hr', Hm'. tauto.
    + destruct e0; reduce_state; rewrite Hr', Hm'; tauto.
  - intros a v [Hr Hm]. unfold Spec.sized. unfold_run. destruct_tests; reduce_state;
      repeat match goal with
             | E : setitem _ _ _ = inr _ |- _ => apply setitem_length in E
             end;
      reduce_state; unfold value in *; split; congruence.
Qed.

(** X6.  On a machine with its 16 registers, a [step] that returns has
    decoded the slot at [pc] and counted one cycle, and the new [pc] is
    [hhll] for JMP (0x10), the old [pc] or the old [pc] plus 4 for VBLNK
    (0x02), and the old [pc] plus 4 for every other opcode. *)
Theorem step_pc_discipline s :
  Z.of_nat (length (Cpu.r s)) = 0xF + 1 ->
  outcome (Cpu.step s) = inr tt ->
  exists p,
    Cpu.create_params (Cpu.pc s) s = Ret p s /\
    Cpu.current_cyles (final (Cpu.step s)) = Cpu.current_cyles s + 1 /\
    ((Cpu.Params.op_code p = Some 0x10 /\
      Cpu.pc (final (Cpu.step s)) = Cpu.Params.hhll p)
     \/ (Cpu.Params.op_code p = Some 0x02 /\
         (Cpu.pc (final (Cpu.step s)) = Cpu.pc s \/
          Cpu.pc (final (Cpu.step s)) = Cpu.pc s + 4))
     \/ (Cpu.Params.op_code p <> Some 0x10 /\ Cpu.Params.op_code p <> Some 0x02 /\
         Cpu.pc (final (Cpu.step s)) = Cpu.pc s + 4)).
Proof.
  intros Hlen Hret.
  assert (Hcycles : Cpu.current_cyles (final (Cpu.step s)) = Cpu.current_cyles s + 1).
  { destruct (Cpu.step s) as [[] s'|e s'] eqn:Hstep; [|discriminate].
    apply (step_counts_one s s' Hstep). }
  revert Hret Hcycles.
  destruct (step_paths s) as [(e0 & Hp & ->)|[(p & Hp & Hun & ->)|
                              (p & op & ins & Hp & Hop & Hins & ->)]];
    try discriminate.
  intros Hret Hcycles. exists p. split; [exact Hp|]. split; [exact Hcycles|].
  clear Hcycles. rewrite Hop.
  pose proof (execute_effect op ins p s Hins Hlen (decoded_x_range _ _ _ _ Hp)) as Heff.
  destruct (Cpu.execute ins p s) as [n s'|e0 s']; reduce_state.
  - destruct Heff as (Hpc & Hjmp & Hn & Hv & _).
    destruct (Z.eq_dec op 0x02) as [->|Hne].
    + right. left. split; [reflexivity|]. specialize (Hv eq_refl). lia.
    + right. right. rewrite (Hn Hne). split_all; congruence.
  - destruct Heff as [[-> Hkind]|(-> & -> & ->)].
    + destruct e0; try discriminate Hret.
      destruct Hkind as [?|[?|?]]; discriminate.
    + left. reduce_state. split; reflexivity.
Qed.

(** X15.  On a machine with its 16 registers, a [step] that returns leaves
    the memory as it was unless the opcode is STM (0x30, 0x31), the
    registers unless it is RND, LDI rx, LDM or MOV (0x07, 0x20, 0x22, 0x23,
    0x24), the stack pointer unless it is LDI SP (0x21), and the flags
    unless it is DRW (0x05, 0x06). *)
Theorem step_footprint s :
  Z.of_nat (length (Cpu.r s)) = 0xF + 1 ->
  outcome (Cpu.step s) = inr tt ->
  exists p op,
    Cpu.create_params (Cpu.pc s) s = Ret p s /\
    Cpu.Params.op_code p = Some op /\
    (op <> 0x30 -> op <> 0x31 ->
     Cpu.memory (final (Cpu.step s)) = Cpu.memory s) /\
    (op <> 0x07 -> op <> 0x20 -> op <> 0x22 -> op <> 0x23 -> op <> 0x24 ->
     Cpu.r (final (Cpu.step s)) = Cpu.r s) /\
    (op <> 0x21 -> Cpu.sp (final (Cpu.step s)) = Cpu.sp s) /\
    (op <> 0x05 -> op <> 0x06 -> Cpu.flag (final (Cpu.step s)) = Cpu.flag s).
Proof.
  intros Hlen.
  destruct (step_paths s) as [(e0 & Hp & ->)|[(p & Hp & Hun & ->)|
                              (p & op & ins & Hp & Hop & Hins & ->)]];
    try discriminate.
  intros Hret. exists p, op. split; [exact Hp|]. split; [exact Hop|].
  pose proof (execute_effect op ins p s Hins Hlen (decoded_x_range _ _ _ _ Hp)) as Heff.
  destruct (Cpu.execute ins p s) as [n s'|e0 s']; reduce_state.
  - destruct Heff as (_ & _ & _ & _ & Hm & Hr & Hsp & Hf). tauto.
  - destruct Heff as [[-> Hkind]|(-> & -> & ->)].
    + destruct e0; try discriminate; reduce_state; tauto.
    + reduce_state. tauto.
Qed.

End Steps.

(** ** Numbers, decoded fields and the word primitives *)

Section Numbers.
Context {G S R : Type} `{!Gpu.t G} `{!Spu.t S} `{!Random.t R}.
Implicit Types (s : Cpu.t G S R) (p : Cpu.Params.t).

Lemma testbit_15 (v : Z) :
  0 <= v <= 65535 -> Z.testbit v 15 = (32768 <=? v).
Proof.
  intros Hv. rewrite Z.testbit_eqb by lia.
  change (2 ^ 15) with 32768.
  destruct (Z.leb_spec 32768 v).
  - replace (v / 32768) with 1 by (apply Z.div_unique with (v - 32768); lia).
    reflexivity.
  - rewrite Z.div_small by lia. reflexivity.
Qed.

Lemma toSigned16_int16 (v : Z) :
  0 <= v <= 65535 -> Spec.int16 (Spec.toSigned16 v).
Proof.
  intros Hv. unfold Spec.toSigned16, Spec.int16. rewrite testbit_15 by exact Hv.
  destruct (Z.leb_spec 32768 v); lia.
Qed.

(** X1.  On an unsigned 16-bit value the two's complement function of the
    machine returns a value of the signed 16-bit range that is congruent
    to its argument modulo 65536: the argument itself below 32768, the
    argument minus 65536 from 32768 on. *)
Theorem twos_complement_range (v : Z) :
  0 <= v <= 65535 ->
  Spec.int16 (Cpu.create_16bit_two_complement v) /\
  Cpu.create_16bit_two_complement v mod 65536 = v /\
  Cpu.create_16bit_two_complement v = (if v <? 32768 then v else v - 65536).
Proof.
  intros Hv. rewrite create_16bit_two_complement_toSigned16.
  unfold Spec.toSigned16, Spec.int16. rewrite testbit_15 by exact Hv.
  destruct (Z.leb_spec 32768 v), (Z.ltb_spec v 32768); try lia.
  - split; [lia|]. split; [|reflexivity].
    symmetry. apply Z.mod_unique with (-1); lia.
  - split; [lia|]. split; [|reflexivity]. apply Z.mod_small. lia.
Qed.

Lemma lor_shiftl_8 (low high : Z) :
  0 <= low <= 255 -> Z.lor (Z.shiftl high 8) low = 256 * high + low.
Proof.
  intros Hlow.
  assert (Hdisjoint : Z.land (Z.shiftl high 8) low = 0).
  { apply Z.bits_inj_0. intros i. rewrite Z.land_spec.
    destruct (Z.lt_ge_cases i 8) as [Hlt|Hge].
    - destruct (Z.lt_ge_cases i 0) as [Hneg|Hpos].
      + rewrite !Z.testbit_neg_r by lia. reflexivity.
      + rewrite Z.shiftl_spec by lia. rewrite Z.testbit_neg_r by lia. reflexivity.
    - rewrite <- (Z.mod_small low (2 ^ 8)) by (change (2 ^ 8) with 256; lia).
      rewrite Z.mod_pow2_bits_high by lia. apply andb_false_r. }
  rewrite <- Z.lxor_lor by exact Hdisjoint.
  rewrite <- Z.add_nocarry_lxor by exact Hdisjoint.
  rewrite Z.shiftl_mul_pow2 by lia. change (2 ^ 8) with 256. lia.
Qed.

Lemma land_15_mod (b : Z) : Z.land b 0x0F = b mod 16.
Proof. apply (Z.land_ones b 4). lia. Qed.

Lemma land_1_mod (b : Z) : Z.land b 1 = b mod 2.
Proof. apply (Z.land_ones b 1). lia. Qed.

(** X3.  When the three operand cells of a slot hold bytes, the decoded
    register indices [x] and [y] are in 0..15 and put together give the
    register byte back, [n] and [z] are the low nibble of the third byte,
    [hhll] is the little-endian word of the last two bytes, in 0..65535,
    and [vflip] and [hflip] are the lowest bit and the remaining bits of
    the last byte. *)
Theorem decode_bytes s a byte0 byte1 byte2 byte3 :
  Spec.slot s a byte0 byte1 byte2 byte3 ->
  Spec.byte byte1 -> Spec.byte byte2 -> Spec.byte byte3 ->
  exists p,
    Cpu.create_params a s = Ret p s /\
    Cpu.Params.op_code p = byte0 /\
    0 <= Cpu.Params.x p <= 15 /\ 0 <= Cpu.Params.y p <= 15 /\
    16 * Cpu.Params.y p + Cpu.Params.x p = byte1 /\
    Cpu.Params.n p = byte2 mod 16 /\ Cpu.Params.z p = Cpu.Params.n p /\
    Cpu.Params.hhll p = 256 * byte3 + byte2 /\
    0 <= Cpu.Params.hhll p <= 65535 /\
    Cpu.Params.vtsr p = Cpu.Params.hhll p /\
    2 * Cpu.Params.hflip p + Cpu.Params.vflip p = byte3 /\
    0 <= Cpu.Params.vflip p <= 1.
Proof.
  unfold Spec.byte. intros Hslot Hb1 Hb2 Hb3.
  exists (Spec.decode byte0 byte1 byte2 byte3).
  split; [apply create_params_slot; exact Hslot|].
  unfold Spec.decode. cbn [Cpu.Params.op_code Cpu.Params.x Cpu.Params.y
    Cpu.Params.n Cpu.Params.z Cpu.Params.hhll Cpu.Params.vtsr Cpu.Params.hflip
    Cpu.Params.vflip].
  rewrite lor_shiftl_8 by exact Hb2.
  rewrite !Z.shiftr_div_pow2 by lia.
  rewrite !land_15_mod, land_1_mod.
  change (2 ^ 4) with 16. change (2 ^ 1) with 2.
  pose proof (Z.div_mod byte1 16). pose proof (Z.mod_pos_bound byte1 16).
  pose proof (Z.div_mod byte3 2). pose proof (Z.mod_pos_bound byte3 2).
  pose proof (Z.mod_pos_bound byte2 16).
  split_all; try reflexivity; try lia.
Qed.

Lemma table_0x00 :
  Cpu.instruction_table (G:=G) (S:=S) (R:=R) !! 0x00
  = Some (Cpu.Instruction "NOP"%string Cpu.nop).
Proof. reflexivity. Qed.

(** X14.  A [step] on a slot whose opcode is NOP (0x00) returns, whatever
    the operand bytes are; afterwards [pc] is the [pc] before plus 4, the
    cycle counter is the counter before plus 1, and the stack pointer, the
    registers, the flags, the memory and the collaborators are as before. *)
Theorem nop_step s byte1 byte2 byte3 :
  Spec.slot s (Cpu.pc s) (Some 0x00) byte1 byte2 byte3 ->
  Cpu.step s =
    Ret tt (Cpu.set_current_cyles (Cpu.current_cyles s + 1)
              (Cpu.set_pc (Cpu.pc s + 4) s))
  /\ outcome (Cpu.step s) = inr tt
  /\ Cpu.pc (final (Cpu.step s)) = Cpu.pc s + 4
  /\ Cpu.current_cyles (final (Cpu.step s)) = Cpu.current_cyles s + 1
  /\ Cpu.sp (final (Cpu.step s)) = Cpu.sp s
  /\ Cpu.r (final (Cpu.step s)) = Cpu.r s
  /\ Cpu.flag (final (Cpu.step s)) = Cpu.flag s
  /\ Cpu.memory (final (Cpu.step s)) = Cpu.memory s
  /\ Cpu.gpu (final (Cpu.step s)) = Cpu.gpu s
  /\ Cpu.spu (final (Cpu.step s)) = Cpu.spu s
  /\ Cpu.random (final (Cpu.step s)) = Cpu.random s.
Proof.
  intros Hslot.
  assert (Hstep : Cpu.step s =
    Ret tt (Cpu.set_current_cyles (Cpu.current_cyles s + 1)
              (Cpu.set_pc (Cpu.pc s + 4) s))).
  { rewrite (step_dispatch s _ _ (create_params_slot _ _ _ _ _ _ Hslot)
               (instruction_set_get_int 0x00 _ table_0x00)).
    reflexivity. }
  rewrite Hstep. reduce_state. split_all; reflexivity.
Qed.

(** X8.  A machine that has just been reset cannot step: every cell is
    unset, the decoder raises [TypeError] and the machine stays as [reset]
    left it, whatever the collaborators are. *)
Theorem step_after_reset s :
  Cpu.step (final (Cpu.reset s)) = Raise TypeError (final (Cpu.reset s)).
Proof.
  apply step_create_params_Raise.
  apply (create_params_unset _ _ None);
    unfold Cpu.reset, modify; reduce_state; unfold Cpu.RAM_ROM_START;
    apply getitem_lookup; try lia;
    apply lookup_replicate_2; lia.
Qed.

End Numbers.

(** ** Addresses of [write] and [read], and moves through memory *)

Section Memory.
Context {G S R : Type} `{!Gpu.t G} `{!Spu.t S} `{!Random.t R}.
Implicit Types (s : Cpu.t G S R) (p : Cpu.Params.t).

Lemma index_mod (len i : Z) :
  - len <= i < len -> index len i = Some (Z.to_nat (i mod len)).
Proof.
  intros Hi. unfold index.
  destruct (Z.leb_spec 0 i), (Z.ltb_spec i len); simpl; try lia.
  - rewrite Z.mod_small by lia. reflexivity.
  - destruct (Z.leb_spec (- len) i), (Z.ltb_spec i 0); simpl; try lia.
    replace (i mod len) with (len + i); [reflexivity|].
    apply Z.mod_unique with (-1); lia.
Qed.

Lemma index_outside (len i : Z) :
  ~ (- len <= i < len) -> index len i = None.
Proof.
  intros Hi. unfold index.
  destruct (Z.leb_spec 0 i), (Z.ltb_spec i len); simpl; try lia;
    destruct (Z.leb_spec (- len) i), (Z.ltb_spec i 0); simpl; try lia; reflexivity.
Qed.

Lemma memory_set_mod s i v :
  - Z.of_nat (length (Cpu.memory s)) <= i < Z.of_nat (length (Cpu.memory s)) ->
  Cpu.memory_set i v s =
    Ret tt (Cpu.set_memory
              (<[Z.to_nat (i mod Z.of_nat (length (Cpu.memory s))) := v]> (Cpu.memory s)) s).
Proof.
  intros Hi. unfold Cpu.memory_set, setitem. rewrite index_mod by exact Hi.
  reflexivity.
Qed.

Lemma memory_set_outside s i v :
  ~ (- Z.of_nat (length (Cpu.memory s)) <= i < Z.of_nat (length (Cpu.memory s))) ->
  Cpu.memory_set i v s = Raise IndexError s.
Proof.
  intros Hi. unfold Cpu.memory_set, setitem. rewrite index_outside by exact Hi.
  reflexivity.
Qed.

(** X9.  In the 65536-cell memory [write] accepts every address from
    -65536 to 65534: negative addresses count from the end, as Python list
    indices do, so the low byte goes to cell [a mod 65536] and the rest of
    the value to cell [(a + 1) mod 65536]; [write(-1, v)] puts the low
    byte in the last cell and the high byte in cell 0.  For a value in
    0..65535 both stored contents are bytes. *)
Theorem write_any_address s a v :
  Z.of_nat (length (Cpu.memory s)) = 0xFFFF + 1 ->
  -65536 <= a <= 65534 ->
  Cpu.write a v s =
    Ret tt (Cpu.set_memory
              (<[Z.to_nat ((a + 1) mod 65536) := Some (Z.shiftr v 8)]>
                 (<[Z.to_nat (a mod 65536) := Some (Z.land v 0xFF)]> (Cpu.memory s))) s)
  /\ (0 <= v <= 65535 -> Spec.byte (Z.land v 0xFF) /\ Spec.byte (Z.shiftr v 8))
  /\ outcome (Cpu.write a v s) = inr tt
  /\ Cpu.memory (final (Cpu.write a v s)) !! Z.to_nat (a mod 65536)
     = Some (Some (Z.land v 0xFF))
  /\ Cpu.memory (final (Cpu.write a v s)) !! Z.to_nat ((a + 1) mod 65536)
     = Some (Some (Z.shiftr v 8))
  /\ (forall k : nat,
        k <> Z.to_nat (a mod 65536) -> k <> Z.to_nat ((a + 1) mod 65536) ->
        Cpu.memory (final (Cpu.write a v s)) !! k = Cpu.memory s !! k).
Proof.
  intros Hlen Ha.
  assert (Hrun : Cpu.write a v s =
    Ret tt (Cpu.set_memory
              (<[Z.to_nat ((a + 1) mod 65536) := Some (Z.shiftr v 8)]>
                 (<[Z.to_nat (a mod 65536) := Some (Z.land v 0xFF)]> (Cpu.memory s))) s)).
  { unfold Cpu.write.
    erewrite bind_Ret by (apply memory_set_mod; unfold value in *; lia).
    rewrite memory_set_mod
      by (reduce_state; rewrite length_insert; unfold value in *; lia).
    reduce_state. rewrite length_insert. unfold value in *. rewrite Hlen.
    reflexivity. }
  split; [exact Hrun|]. split.
  { intros Hv. unfold Spec.byte.
    replace (Z.land v 0xFF) with (v mod 256)
      by (symmetry; apply (Z.land_ones v 8); lia).
    rewrite Z.shiftr_div_pow2 by lia. change (2 ^ 8) with 256.
    pose proof (Z.mod_pos_bound v 256).
    assert (v / 256 < 256) by (apply Z.div_lt_upper_bound; lia).
    assert (0 <= v / 256) by (apply Z.div_pos; lia).
    lia. }
  assert (Hmod : forall i, -65536 <= i <= 65535 ->
            i mod 65536 = if i <? 0 then i + 65536 else i).
  { intros i Hi. destruct (Z.ltb_spec i 0).
    - symmetry. apply Z.mod_unique with (-1); lia.
    - apply Z.mod_small. lia. }
  pose proof (Hmod a ltac:(lia)) as Hma. pose proof (Hmod (a + 1) ltac:(lia)) as Hma1.
  assert (Hne : Z.to_nat (a mod 65536) <> Z.to_nat ((a + 1) mod 65536)).
  { rewrite Hma, Hma1. destruct (Z.ltb_spec a 0), (Z.ltb_spec (a + 1) 0); lia. }
  assert (Hlt : (Z.to_nat (a mod 65536) < length (Cpu.memory s))%nat
                /\ (Z.to_nat ((a + 1) mod 65536) < length (Cpu.memory s))%nat).
  { rewrite Hma, Hma1. unfold value in *.
    destruct (Z.ltb_spec a 0), (Z.ltb_spec (a + 1) 0); lia. }
  destruct Hlt as [Hlt Hlt1].
  rewrite Hrun. reduce_state. split; [reflexivity|]. split; [|split].
  - rewrite list_lookup_insert_ne by congruence.
    apply list_lookup_insert_eq. exact Hlt.
  - apply list_lookup_insert_eq. rewrite length_insert. exact Hlt1.
  - intros k Hk Hk1. rewrite !list_lookup_insert_ne by congruence. reflexivity.
Qed.

(** X10.  In the 65536-cell memory [write] at the last address 65535
    raises [IndexError] after it has stored the low byte there: the cell
    is changed although the call failed.  At an address below -65536 or
    from 65536 on it raises [IndexError] and changes nothing. *)
Theorem write_out_of_range s v :
  Z.of_nat (length (Cpu.memory s)) = 0xFFFF + 1 ->
  Cpu.write 65535 v s =
    Raise IndexError
      (Cpu.set_memory (<[Z.to_nat 65535 := Some (Z.land v 0xFF)]> (Cpu.memory s)) s)
  /\ (forall a, a < -65536 \/ 65536 <= a -> Cpu.write a v s = Raise IndexError s)
  /\ outcome (Cpu.write 65535 v s) = inl IndexError
  /\ Cpu.memory (final (Cpu.write 65535 v s)) !! Z.to_nat 65535
     = Some (Some (Z.land v 0xFF)).
Proof.
  intros Hlen.
  assert (Hrun : Cpu.write 65535 v s =
    Raise IndexError
      (Cpu.set_memory (<[Z.to_nat 65535 := Some (Z.land v 0xFF)]> (Cpu.memory s)) s)).
  { unfold Cpu.write.
    erewrite bind_Ret by (apply memory_set_mod; unfold value in *; lia).
    unfold value in *. rewrite Hlen.
    apply memory_set_outside. reduce_state. rewrite length_insert.
    unfold value in *. lia. }
  split; [exact Hrun|]. split.
  { intros a Ha. unfold Cpu.write. apply bind_Raise.
    apply memory_set_outside. unfold value in *. lia. }
  rewrite Hrun. reduce_state. split; [reflexivity|].
  apply list_lookup_insert_eq. unfold value in *. lia.
Qed.

(** X12.  When the cells at [a] and [a + 1] hold bytes, [read a] returns
    the signed interpretation of the little-endian word they form, a value
    of the signed 16-bit range, and leaves the machine as it was. *)
Theorem read_bytes s a high low :
  getitem (Cpu.memory s) (a + 1) = inr (Some high) ->
  getitem (Cpu.memory s) a = inr (Some low) ->
  Spec.byte high -> Spec.byte low ->
  Cpu.read (Some a) s = Ret (Spec.toSigned16 (256 * high + low)) s /\
  Spec.int16 (Spec.toSigned16 (256 * high + low)).
Proof.
  unfold Spec.byte. intros Hhigh Hlow Hh Hl.
  rewrite (read_Ret s a high low Hhigh Hlow).
  rewrite lor_shiftl_8 by exact Hl.
  rewrite create_16bit_two_complement_toSigned16. split; [reflexivity|].
  apply toSigned16_int16. lia.
Qed.

(** X13.  [read] never changes the machine, whether it returns or raises.
    When it raises, the exception is a [TypeError] (the address is [None], or one of the two cells is
    unset) or an [IndexError] (one of the two addresses is outside the
    memory, as [a + 1] is for the last address). *)
Theorem read_failure s (address : value) :
  final (Cpu.read address s) = s /\
  (forall e,
     outcome (Cpu.read address s) = inl e ->
     (e = TypeError /\
      (address = None \/
       exists a, address = Some a /\
         (getitem (Cpu.memory s) (a + 1) = inr None \/
          getitem (Cpu.memory s) a = inr None)))
     \/ (e = IndexError /\
         exists a, address = Some a /\
           (getitem (Cpu.memory s) (a + 1) = inl IndexError \/
            getitem (Cpu.memory s) a = inl IndexError))).
Proof.
  split.
  - unfold_run. destruct_tests; reduce_state; reflexivity.
  - intros e. unfold_run. destruct_tests; reduce_state; try discriminate;
      intros [= <-];
      repeat match goal with
             | E : getitem _ _ = inl ?e |- _ =>
                 is_var e; pose proof (getitem_inl _ _ _ E); subst e
             end;
      tidy_tests; eauto 10.
Qed.

End Memory.

(** ** The decoder's outcomes; store, load and register accessors *)

Section Moves.
Context {G S R : Type} `{!Gpu.t G} `{!Spu.t S} `{!Random.t R}.
Implicit Types (s : Cpu.t G S R) (p : Cpu.Params.t).

(** X2.  The decoder never changes the machine.  It returns exactly when
    the four cells of the slot can be read and the three operand cells
    hold integers, and then it returns the field set of those bytes; when
    it raises, the exception is an [IndexError] for a cell of the slot
    outside the memory, or a [TypeError] for an unset operand cell. *)
Theorem create_params_outcomes s a :
  final (Cpu.create_params a s) = s /\
  (forall p s', Cpu.create_params a s = Ret p s' <->
     s' = s /\ exists byte0 byte1 byte2 byte3,
       Spec.slot s a byte0 byte1 byte2 byte3 /\
       p = Spec.decode byte0 byte1 byte2 byte3) /\
  (forall e, outcome (Cpu.create_params a s) = inl e ->
     (e = IndexError /\
      exists k, 0 <= k <= 3 /\ getitem (Cpu.memory s) (a + k) = inl IndexError) \/
     (e = TypeError /\
      exists k, 1 <= k <= 3 /\ getitem (Cpu.memory s) (a + k) = inr None)).
Proof.
  split; [|split].
  - destruct (Cpu.create_params a s) as [p s'|e s'] eqn:Hp; reduce_state.
    + apply create_params_Ret_inv in Hp. tauto.
    + apply create_params_Raise_inv in Hp. tauto.
  - intros p s'. split.
    + apply create_params_Ret_inv.
    + intros (-> & b0 & b1 & b2 & b3 & Hslot & ->).
      apply create_params_slot. exact Hslot.
  - intros e. destruct (Cpu.create_params a s) as [p s'|e' s'] eqn:Hp;
      reduce_state; [discriminate|].
    intros [= ->]. apply create_params_Raise_inv in Hp. tauto.
Qed.

(** X16.  On a machine with 16 registers and 65536 cells, STM rx, hhll
    followed by LDM rx', hhll at the same address copies the content of
    register [x] to register [x'] through the cell at [hhll], whatever
    that content is: an unset register, or any integer, is moved
    unchanged. *)
Theorem stm_ldm_roundtrip s p p' :
  Spec.sized s ->
  0 <= Cpu.Params.x p <= 15 ->
  0 <= Cpu.Params.x p' <= 15 ->
  0 <= Cpu.Params.hhll p <= 65535 ->
  Cpu.Params.hhll p' = Cpu.Params.hhll p ->
  exists s1 s2,
    Cpu.stm_rx p s = Ret 4 s1 /\
    Cpu.ldm_rx p' s1 = Ret 4 s2 /\
    Cpu.r s2 !! Z.to_nat (Cpu.Params.x p') = Cpu.r s !! Z.to_nat (Cpu.Params.x p) /\
    Cpu.memory s2 !! Z.to_nat (Cpu.Params.hhll p)
      = Cpu.r s !! Z.to_nat (Cpu.Params.x p).
Proof.
  intros [Hr Hm] Hx Hx' Hh Heq.
  destruct (Cpu.r s !! Z.to_nat (Cpu.Params.x p)) as [v|] eqn:Hv.
  2:{ apply lookup_ge_None in Hv. unfold value in *. lia. }
  eexists _, _. split; [|split; [|split]].
  - eapply stm_rx_Ret.
    + apply getitem_lookup; [lia|exact Hv].
    + apply setitem_nonneg. unfold value in *. lia.
  - eapply ldm_rx_Ret; reduce_state.
    + rewrite Heq. apply getitem_lookup; [lia|].
      apply list_lookup_insert_eq. unfold value in *. lia.
    + apply setitem_nonneg. unfold value in *. lia.
  - reduce_state. apply list_lookup_insert_eq. unfold value in *. lia.
  - reduce_state. apply list_lookup_insert_eq. unfold value in *. lia.
Qed.

Lemma table_0x20 :
  Cpu.instruction_table (G:=G) (S:=S) (R:=R) !! 0x20
  = Some (Cpu.Instruction "LDI RX, HHLL"%string Cpu.ldi_rx).
Proof. reflexivity. Qed.

(** X17.  On a machine with its 16 registers, a [step] on LDI rx, hhll
    with byte operands returns, and [register_r x] then returns the signed
    interpretation of [hhll], a value of the signed 16-bit range. *)
Theorem ldi_then_register_r s byte1 byte2 byte3 :
  Z.of_nat (length (Cpu.r s)) = 0xF + 1 ->
  Spec.slot s (Cpu.pc s) (Some 0x20) byte1 byte2 byte3 ->
  Spec.byte byte2 -> Spec.byte byte3 ->
  exists s',
    Cpu.step s = Ret tt s' /\
    Cpu.register_r (Z.land byte1 0x0F) s'
      = Ret (Spec.toSigned16 (256 * byte3 + byte2)) s' /\
    Spec.int16 (Spec.toSigned16 (256 * byte3 + byte2)).
Proof.
  unfold Spec.byte. intros Hlen Hslot Hb2 Hb3.
  pose proof (land_15_range byte1) as Hx.
  eexists. split; [|split].
  - rewrite (step_dispatch s _ _ (create_params_slot _ _ _ _ _ _ Hslot)
               (instruction_set_get_int 0x20 _ table_0x20)).
    cbn [Cpu.execute]. unfold Cpu.ldi_rx.
    unfold Spec.decode; cbn [Cpu.Params.x Cpu.Params.hhll].
    unfold bind, Cpu.r_set. rewrite setitem_nonneg by (unfold value in *; lia).
    unfold ret. reflexivity.
  - unfold Cpu.register_r.
    erewrite (bind_Ret (Cpu.r_get _)).
    2:{ apply r_get_Ret. reduce_state. apply getitem_lookup; [lia|].
        apply list_lookup_insert_eq. unfold value in *. lia. }
    cbv beta iota. unfold ret.
    rewrite lor_shiftl_8 by exact Hb2.
    rewrite create_16bit_two_complement_toSigned16. reflexivity.
  - apply toSigned16_int16. lia.
Qed.

(** X11.  A [step] on JMP hhll with byte operands returns; afterwards [pc]
    is the little-endian word of the last two bytes of the slot, an
    address in 0..65535, the cycle counter is the counter before plus 1,
    and the stack pointer, the registers, the flags and the memory are as
    before; the register byte of the slot is ignored. *)
Theorem jmp_step s byte1 byte2 byte3 :
  Spec.slot s (Cpu.pc s) (Some 0x10) byte1 byte2 byte3 ->
  Spec.byte byte2 -> Spec.byte byte3 ->
  Cpu.step s =
    Ret tt (Cpu.set_current_cyles (Cpu.current_cyles s + 1)
              (Cpu.set_pc (256 * byte3 + byte2) s))
  /\ 0 <= 256 * byte3 + byte2 <= 65535
  /\ outcome (Cpu.step s) = inr tt
  /\ Cpu.pc (final (Cpu.step s)) = 256 * byte3 + byte2
  /\ Cpu.current_cyles (final (Cpu.step s)) = Cpu.current_cyles s + 1
  /\ Cpu.sp (final (Cpu.step s)) = Cpu.sp s
  /\ Cpu.r (final (Cpu.step s)) = Cpu.r s
  /\ Cpu.flag (final (Cpu.step s)) = Cpu.flag s
  /\ Cpu.memory (final (Cpu.step s)) = Cpu.memory s.
Proof.
  unfold Spec.byte. intros Hslot Hb2 Hb3.
  assert (Hstep : Cpu.step s =
    Ret tt (Cpu.set_current_cyles (Cpu.current_cyles s + 1)
              (Cpu.set_pc (256 * byte3 + byte2) s))).
  { rewrite (step_dispatch s _ _ (create_params_slot _ _ _ _ _ _ Hslot)
               (instruction_set_get_int 0x10 _ table_0x10)).
    cbn [Cpu.execute]. unfold Cpu.jmp, Spec.decode. cbn [Cpu.Params.hhll].
    rewrite lor_shiftl_8 by exact Hb2. reflexivity. }
  rewrite Hstep. reduce_state. split_all; reflexivity || lia.
Qed.

End Moves.

(** ** A program: LDI, STM, LDM *)

Section Program.
Context {G S R : Type} `{!Gpu.t G} `{!Spu.t S} `{!Random.t R}.
Implicit Types (s : Cpu.t G S R) (p : Cpu.Params.t).

Lemma table_0x22 :
  Cpu.instruction_table (G:=G) (S:=S) (R:=R) !! 0x22
  = Some (Cpu.Instruction "LDM RX, HHLL"%string Cpu.ldm_rx).
Proof. reflexivity. Qed.

Lemma table_0x30 :
  Cpu.instruction_table (G:=G) (S:=S) (R:=R) !! 0x30
  = Some (Cpu.Instruction "STM RX, HHLL"%string Cpu.stm_rx).
Proof. reflexivity. Qed.

Lemma ldi_rx_step s byte1 byte2 byte3 :
  Z.of_nat (length (Cpu.r s)) = 16 ->
  Spec.slot s (Cpu.pc s) (Some 0x20) byte1 byte2 byte3 ->
  Spec.byte byte2 ->
  Cpu.step s =
    Ret tt (Cpu.set_current_cyles (Cpu.current_cyles s + 1)
              (Cpu.set_pc (Cpu.pc s + 4)
                 (Cpu.set_r (<[Z.to_nat (Z.land byte1 0x0F) := Some (256 * byte3 + byte2)]>
                               (Cpu.r s)) s))).
Proof.
  unfold Spec.byte. intros Hlen Hslot Hb2.
  pose proof (land_15_range byte1) as Hx.
  rewrite (step_dispatch s _ _ (create_params_slot _ _ _ _ _ _ Hslot)
             (instruction_set_get_int 0x20 _ table_0x20)).
  cbn [Cpu.execute]. unfold Cpu.ldi_rx, Spec.decode.
  cbn [Cpu.Params.x Cpu.Params.hhll].
  unfold bind, Cpu.r_set. rewrite setitem_nonneg by (unfold value in *; lia).
  rewrite lor_shiftl_8 by exact Hb2. reflexivity.
Qed.

Lemma stm_rx_step s byte1 byte2 byte3 v :
  Z.of_nat (length (Cpu.memory s)) = 65536 ->
  Spec.slot s (Cpu.pc s) (Some 0x30) byte1 byte2 byte3 ->
  Spec.byte byte2 -> Spec.byte byte3 ->
  Cpu.r s !! Z.to_nat (Z.land byte1 0x0F) = Some v ->
  Cpu.step s =
    Ret tt (Cpu.set_current_cyles (Cpu.current_cyles s + 1)
              (Cpu.set_pc (Cpu.pc s + 4)
                 (Cpu.set_memory (<[Z.to_nat (256 * byte3 + byte2) := v]>
                                    (Cpu.memory s)) s))).
Proof.
  unfold Spec.byte. intros Hlen Hslot Hb2 Hb3 Hv.
  pose proof (land_15_range byte1) as Hx.
  rewrite (step_dispatch s _ _ (create_params_slot _ _ _ _ _ _ Hslot)
             (instruction_set_get_int 0x30 _ table_0x30)).
  cbn [Cpu.execute].
  erewrite stm_rx_Ret; [reflexivity| |].
  - unfold Spec.decode; cbn [Cpu.Params.x]. apply getitem_lookup; [lia|exact Hv].
  - unfold Spec.decode; cbn [Cpu.Params.hhll].
    rewrite lor_shiftl_8 by exact Hb2.
    apply setitem_nonneg. unfold value in *. lia.
Qed.

Lemma ldm_rx_step s byte1 byte2 byte3 v :
  Z.of_nat (length (Cpu.r s)) = 16 ->
  Spec.slot s (Cpu.pc s) (Some 0x22) byte1 byte2 byte3 ->
  Spec.byte byte2 -> Spec.byte byte3 ->
  Cpu.memory s !! Z.to_nat (256 * byte3 + byte2) = Some v ->
  Cpu.step s =
    Ret tt (Cpu.set_current_cyles (Cpu.current_cyles s + 1)
              (Cpu.set_pc (Cpu.pc s + 4)
                 (Cpu.set_r (<[Z.to_nat (Z.land byte1 0x0F) := v]> (Cpu.r s)) s))).
Proof.
  unfold Spec.byte. intros Hlen Hslot Hb2 Hb3 Hv.
  pose proof (land_15_range byte1) as Hx.
  rewrite (step_dispatch s _ _ (create_params_slot _ _ _ _ _ _ Hslot)
             (instruction_set_get_int 0x22 _ table_0x22)).
  cbn [Cpu.execute].
  erewrite ldm_rx_Ret; [reflexivity| |].
  - unfold Spec.decode; cbn [Cpu.Params.hhll].
    rewrite lor_shiftl_8 by exact Hb2. apply getitem_lookup; [lia|exact Hv].
  - unfold Spec.decode; cbn [Cpu.Params.x].
    apply setitem_nonneg. unfold value in *. lia.
Qed.

Lemma getitem_insert_ne (l : list value) (k : nat) (v w : value) (i : Z) :
  0 <= i -> Z.to_nat i <> k ->
  getitem l i = inr w -> getitem (<[k := v]> l) i = inr w.
Proof.
  intros Hi Hne. unfold getitem. rewrite length_insert.
  destruct (index (Z.of_nat (length l)) i) as [j|] eqn:Hj; [|discriminate].
  assert (j = Z.to_nat i) as ->.
  { destruct (Z.lt_ge_cases i (Z.of_nat (length l))) as [Hlt|Hge].
    - rewrite index_nonneg in Hj by lia. congruence.
    - rewrite index_outside in Hj by lia. discriminate. }
  rewrite list_lookup_insert_ne by congruence. trivial.
Qed.

(** X18.  On a machine with 16 registers and 65536 cells whose [pc] is
    [a], with LDI rx, v then STM rx, addr then LDM ry, addr in the three
    slots from [a] (byte operands, [addr] outside the third slot), three
    calls of [step] return: register [y] then holds [v], the cell at
    [addr] holds the whole of [v], [pc] is [a + 12] and three cycles have
    been counted. *)
Theorem ldi_stm_ldm_program s a bx by_ vl vh al ah :
  Spec.sized s ->
  Cpu.pc s = a -> 0 <= a ->
  Spec.slot s a (Some 0x20) bx vl vh ->
  Spec.slot s (a + 4) (Some 0x30) bx al ah ->
  Spec.slot s (a + 8) (Some 0x22) by_ al ah ->
  Spec.byte vl -> Spec.byte vh -> Spec.byte al -> Spec.byte ah ->
  256 * ah + al < a + 8 \/ a + 11 < 256 * ah + al ->
  exists s1 s2 s3,
    Cpu.step s = Ret tt s1 /\ Cpu.step s1 = Ret tt s2 /\ Cpu.step s2 = Ret tt s3 /\
    Cpu.r s3 !! Z.to_nat (Z.land by_ 0x0F) = Some (Some (256 * vh + vl)) /\
    Cpu.memory s3 !! Z.to_nat (256 * ah + al) = Some (Some (256 * vh + vl)) /\
    Cpu.pc s3 = a + 12 /\
    Cpu.current_cyles s3 = Cpu.current_cyles s + 3.
Proof.
  intros [Hr Hm] Hpc Ha Hs1 Hs2 Hs3 Hvl Hvh Hal Hah Hout. subst a.
  pose proof (land_15_range bx) as Hx. pose proof (land_15_range by_) as Hy.
  unfold Spec.byte in *.
  eexists _, _, _. split; [|split; [|split]].
  - apply ldi_rx_step; [exact Hr|exact Hs1|exact Hvl].
  - apply (stm_rx_step _ bx al ah (Some (256 * vh + vl)));
      reduce_state; try assumption.
    apply list_lookup_insert_eq. unfold value in *. lia.
  - apply (ldm_rx_step _ by_ al ah (Some (256 * vh + vl))); reduce_state.
    + rewrite length_insert. exact Hr.
    + replace (Cpu.pc s + 4 + 4) with (Cpu.pc s + 8) by lia.
      destruct Hs3 as (Hc0 & Hc1 & Hc2 & Hc3).
      split_all; apply getitem_insert_ne; try assumption; try lia.
    + exact Hal.
    + exact Hah.
    + apply list_lookup_insert_eq. unfold value in *. lia.
  - reduce_state. split_all.
    + apply list_lookup_insert_eq. rewrite length_insert. unfold value in *. lia.
    + apply list_lookup_insert_eq. unfold value in *. lia.
    + lia.
    + lia.
Qed.

End Program.

(** ** Concrete instances *)

Ltac decide_bounds := vm_compute; split; discriminate.

Lemma twos_complement_range_witness :
  Spec.int16 (Cpu.create_16bit_two_complement 0x8001) /\
  Cpu.create_16bit_two_complement 0x8001 mod 65536 = 0x8001 /\
  Cpu.create_16bit_two_complement 0x8001 = (if 0x8001 <? 32768 then 0x8001 else 0x8001 - 65536).
Proof. apply (twos_complement_range 0x8001). lia. Defined.

Lemma create_params_outcomes_witness :
  (IndexError = IndexError /\
   exists k, 0 <= k <= 3 /\
     getitem (Cpu.memory Stub.zeroed_machine) (0xFFFD + k) = inl IndexError) \/
  (IndexError = TypeError /\
   exists k, 1 <= k <= 3 /\
     getitem (Cpu.memory Stub.zeroed_machine) (0xFFFD + k) = inr None).
Proof.
  apply (proj2 (proj2 (create_params_outcomes Stub.zeroed_machine 0xFFFD)) IndexError).
  vm_compute. reflexivity.
Defined.

Lemma decode_bytes_witness :
  exists p,
    Cpu.create_params 0 Stub.jmp_machine = Ret p Stub.jmp_machine /\
    Cpu.Params.op_code p = Some 0x10 /\
    0 <= Cpu.Params.x p <= 15 /\ 0 <= Cpu.Params.y p <= 15 /\
    16 * Cpu.Params.y p + Cpu.Params.x p = 0x00 /\
    Cpu.Params.n p = 0x34 mod 16 /\ Cpu.Params.z p = Cpu.Params.n p /\
    Cpu.Params.hhll p = 256 * 0x12 + 0x34 /\
    0 <= Cpu.Params.hhll p <= 65535 /\
    Cpu.Params.vtsr p = Cpu.Params.hhll p /\
    2 * Cpu.Params.hflip p + Cpu.Params.vflip p = 0x12 /\
    0 <= Cpu.Params.vflip p <= 1.
Proof.
  apply (decode_bytes Stub.jmp_machine 0 (Some 0x10) 0x00 0x34 0x12).
  - split_all; vm_compute; reflexivity.
  - decide_bounds.
  - decide_bounds.
  - decide_bounds.
Defined.

Lemma step_failure_atomic_witness :
  final (Cpu.step Stub.bad_opcode_machine) = Stub.bad_opcode_machine /\
  (KeyError (Some 0xFF) = TypeError \/ KeyError (Some 0xFF) = IndexError \/
   KeyError (Some 0xFF) = ValueError \/ exists key, KeyError (Some 0xFF) = KeyError key).
Proof.
  apply (step_failure_atomic Stub.bad_opcode_machine (KeyError (Some 0xFF))).
  - vm_compute. reflexivity.
  - vm_compute. reflexivity.
Defined.

Lemma sizes_invariant_witness :
  Spec.sized (final (Cpu.step Stub.jmp_machine)).
Proof.
  apply (proj1 (proj2 (sizes_invariant Stub.jmp_machine))).
  split; vm_compute; reflexivity.
Defined.

Lemma step_pc_discipline_witness :
  exists p,
    Cpu.create_params (Cpu.pc Stub.jmp_machine) Stub.jmp_machine = Ret p Stub.jmp_machine /\
    Cpu.current_cyles (final (Cpu.step Stub.jmp_machine))
      = Cpu.current_cyles Stub.jmp_machine + 1 /\
    ((Cpu.Params.op_code p = Some 0x10 /\
      Cpu.pc (final (Cpu.step Stub.jmp_machine)) = Cpu.Params.hhll p)
     \/ (Cpu.Params.op_code p = Some 0x02 /\
         (Cpu.pc (final (Cpu.step Stub.jmp_machine)) = Cpu.pc Stub.jmp_machine \/
          Cpu.pc (final (Cpu.step Stub.jmp_machine)) = Cpu.pc Stub.jmp_machine + 4))
     \/ (Cpu.Params.op_code p <> Some 0x10 /\ Cpu.Params.op_code p <> Some 0x02 /\
         Cpu.pc (final (Cpu.step Stub.jmp_machine)) = Cpu.pc Stub.jmp_machine + 4)).
Proof.
  apply (step_pc_discipline Stub.jmp_machine).
  - vm_compute. reflexivity.
  - vm_compute. reflexivity.
Defined.

Lemma step_footprint_witness :
  exists p op,
    Cpu.create_params (Cpu.pc Stub.stm_machine) Stub.stm_machine = Ret p Stub.stm_machine /\
    Cpu.Params.op_code p = Some op /\
    (op <> 0x30 -> op <> 0x31 ->
     Cpu.memory (final (Cpu.step Stub.stm_machine)) = Cpu.memory Stub.stm_machine) /\
    (op <> 0x07 -> op <> 0x20 -> op <> 0x22 -> op <> 0x23 -> op <> 0x24 ->
     Cpu.r (final (Cpu.step Stub.stm_machine)) = Cpu.r Stub.stm_machine) /\
    (op <> 0x21 ->
     Cpu.sp (final (Cpu.step Stub.stm_machine)) = Cpu.sp Stub.stm_machine) /\
    (op <> 0x05 -> op <> 0x06 ->
     Cpu.flag (final (Cpu.step Stub.stm_machine)) = Cpu.flag Stub.stm_machine).
Proof.
  apply (step_footprint Stub.stm_machine).
  - vm_compute. reflexivity.
  - vm_compute. reflexivity.
Defined.

Lemma write_any_address_witness :
  Cpu.memory (final (Cpu.write (-1) 0x1234 (Stub.init Stub.quiet)))
    !! Z.to_nat (-1 mod 65536) = Some (Some (Z.land 0x1234 0xFF)) /\
  Cpu.memory (final (Cpu.write (-1) 0x1234 (Stub.init Stub.quiet)))
    !! Z.to_nat ((-1 + 1) mod 65536) = Some (Some (Z.shiftr 0x1234 8)).
Proof.
  destruct (write_any_address (Stub.init Stub.quiet) (-1) 0x1234)
    as (_ & _ & _ & Hlow & Hhigh & _).
  - vm_compute. reflexivity.
  - lia.
  - split; [exact Hlow|exact Hhigh].
Defined.

Lemma write_out_of_range_witness :
  Cpu.write 65536 0x1234 (Stub.init Stub.quiet)
  = Raise IndexError (Stub.init Stub.quiet).
Proof.
  apply (proj1 (proj2 (write_out_of_range (Stub.init Stub.quiet) 0x1234
                         ltac:(vm_compute; reflexivity))) 65536).
  lia.
Defined.

Lemma read_bytes_witness :
  Cpu.read (Some 0x2000) Stub.ldm_machine
    = Ret (Spec.toSigned16 (256 * 0x12 + 0x34)) Stub.ldm_machine /\
  Spec.int16 (Spec.toSigned16 (256 * 0x12 + 0x34)).
Proof.
  apply (read_bytes Stub.ldm_machine 0x2000 0x12 0x34).
  - vm_compute. reflexivity.
  - vm_compute. reflexivity.
  - decide_bounds.
  - decide_bounds.
Defined.

Lemma read_failure_witness :
  (IndexError = TypeError /\
   (Some 65535 = None \/
    exists a, Some 65535 = Some a /\
      (getitem (Cpu.memory Stub.zeroed_machine) (a + 1) = inr None \/
       getitem (Cpu.memory Stub.zeroed_machine) a = inr None)))
  \/ (IndexError = IndexError /\
      exists a, Some 65535 = Some a /\
        (getitem (Cpu.memory Stub.zeroed_machine) (a + 1) = inl IndexError \/
         getitem (Cpu.memory Stub.zeroed_machine) a = inl IndexError)).
Proof.
  apply (proj2 (read_failure Stub.zeroed_machine (Some 65535)) IndexError).
  vm_compute. reflexivity.
Defined.

Lemma nop_step_witness :
  Cpu.pc (final (Cpu.step Stub.zeroed_machine)) = Cpu.pc Stub.zeroed_machine + 4 /\
  Cpu.current_cyles (final (Cpu.step Stub.zeroed_machine))
    = Cpu.current_cyles Stub.zeroed_machine + 1.
Proof.
  destruct (nop_step Stub.zeroed_machine 0 0 0) as (_ & _ & Hpc & Hcycles & _).
  - split_all; vm_compute; reflexivity.
  - split; [exact Hpc|exact Hcycles].
Defined.

Lemma stm_ldm_roundtrip_witness :
  exists s1 s2,
    Cpu.stm_rx (Spec.decode (Some 0x30) 0x00 0x00 0x20)
      (final (Stub.steps 1 Stub.stm_machine)) = Ret 4 s1 /\
    Cpu.ldm_rx (Spec.decode (Some 0x22) 0x01 0x00 0x20) s1 = Ret 4 s2 /\
    Cpu.r s2 !! Z.to_nat (Cpu.Params.x (Spec.decode (Some 0x22) 0x01 0x00 0x20))
      = Cpu.r (final (Stub.steps 1 Stub.stm_machine))
          !! Z.to_nat (Cpu.Params.x (Spec.decode (Some 0x30) 0x00 0x00 0x20)) /\
    Cpu.memory s2 !! Z.to_nat (Cpu.Params.hhll (Spec.decode (Some 0x30) 0x00 0x00 0x20))
      = Cpu.r (final (Stub.steps 1 Stub.stm_machine))
          !! Z.to_nat (Cpu.Params.x (Spec.decode (Some 0x30) 0x00 0x00 0x20)).
Proof.
  apply (stm_ldm_roundtrip (final (Stub.steps 1 Stub.stm_machine))
           (Spec.decode (Some 0x30) 0x00 0x00 0x20)
           (Spec.decode (Some 0x22) 0x01 0x00 0x20)).
  - split; vm_compute; reflexivity.
  - decide_bounds.
  - decide_bounds.
  - decide_bounds.
  - reflexivity.
Defined.

Lemma ldi_then_register_r_witness :
  exists s',
    Cpu.step Stub.stm_machine = Ret tt s' /\
    Cpu.register_r (Z.land 0x00 0x0F) s'
      = Ret (Spec.toSigned16 (256 * 0x12 + 0x34)) s' /\
    Spec.int16 (Spec.toSigned16 (256 * 0x12 + 0x34)).
Proof.
  apply (ldi_then_register_r Stub.stm_machine 0x00 0x34 0x12).
  - vm_compute. reflexivity.
  - split_all; vm_compute; reflexivity.
  - decide_bounds.
  - decide_bounds.
Defined.

Lemma jmp_step_witness :
  Cpu.pc (final (Cpu.step Stub.jmp_machine)) = 256 * 0x12 + 0x34 /\
  Cpu.current_cyles (final (Cpu.step Stub.jmp_machine))
    = Cpu.current_cyles Stub.jmp_machine + 1.
Proof.
  destruct (jmp_step Stub.jmp_machine 0x00 0x34 0x12)
    as (_ & _ & _ & Hpc & Hcycles & _).
  - split_all; vm_compute; reflexivity.
  - decide_bounds.
  - decide_bounds.
  - split; [exact Hpc|exact Hcycles].
Defined.

Lemma ldi_stm_ldm_program_witness :
  exists s1 s2 s3,
    Cpu.step Stub.program_machine = Ret tt s1 /\
    Cpu.step s1 = Ret tt s2 /\ Cpu.step s2 = Ret tt s3 /\
    Cpu.r s3 !! Z.to_nat (Z.land 0x01 0x0F) = Some (Some (256 * 0x12 + 0x34)) /\
    Cpu.memory s3 !! Z.to_nat (256 * 0x20 + 0x00) = Some (Some (256 * 0x12 + 0x34)) /\
    Cpu.pc s3 = 0 + 12 /\
    Cpu.current_cyles s3 = Cpu.current_cyles Stub.program_machine + 3.
Proof.
  apply (ldi_stm_ldm_program Stub.program_machine 0 0x00 0x01 0x34 0x12 0x00 0x20).
  - split; vm_compute; reflexivity.
  - reflexivity.
  - lia.
  - split_all; vm_compute; reflexivity.
  - split_all; vm_compute; reflexivity.
  - split_all; vm_compute; reflexivity.
  - decide_bounds.
  - decide_bounds.
  - decide_bounds.
  - decide_bounds.
  - right. vm_compute. reflexivity.
Defined.
